(** * Log-context enrichers of the FastAPI / OpenTelemetry examples

    A shallow embedding of the two structlog processors
    [add_trace_info] (examples/fastapi-integration/main.py) and
    [add_otel_context] (examples/multi-app-integration/main.py), of the
    exporter configuration of the multi-app example and of its simulated
    external service call, together with the properties the specification
    states about them.

    Python objects that are mutated in place (the event dictionary) live in
    an explicit heap and are passed by reference; exceptions are an outcome
    of the computation, and the state reached when one is raised is kept. *)

From Stdlib Require Import ZArith String Ascii List Lia.
From stdpp Require Import gmap strings list fin_maps.

Local Open Scope Z_scope.

(** ** Python's [format(n, "0Wx")] on integers *)

Module PyFormat.

(** The digit alphabet of the ['x'] presentation type. *)
Definition hex_alphabet : list ascii :=
  list_ascii_of_string "0123456789abcdef".

Definition hex_digit (d : nat) : ascii :=
  nth d hex_alphabet "0"%char.

Definition is_lower_hex (c : ascii) : bool :=
  existsb (Ascii.eqb c) hex_alphabet.

(** Numerical value of a hexadecimal digit (0 for any other character). *)
Definition digit_value (c : ascii) : Z :=
  let k := Z.of_nat (nat_of_ascii c) in
  if (48 <=? k) && (k <=? 57) then k - 48
  else if (97 <=? k) && (k <=? 102) then k - 87
  else 0.

(** Digits of a non-negative integer, least significant first.  The fuel
    bounds the number of digits; [hex_digits] supplies enough of it. *)
Fixpoint hex_le (fuel : nat) (n : Z) : list ascii :=
  match fuel with
  | O => []
  | S fuel' =>
      hex_digit (Z.to_nat (n mod 16))
        :: (if n / 16 =? 0 then [] else hex_le fuel' (n / 16))
  end.

Definition hex_digits (n : Z) : list ascii :=
  rev (hex_le (S (Z.to_nat (Z.log2 n))) n).

(** [format(n, "0Wx")]: sign-aware zero padding to [width] characters,
    lowercase hexadecimal digits of the magnitude.  A number that needs
    more than [width] characters is not truncated. *)
Definition format_x (width : nat) (n : Z) : string :=
  let sign := if n <? 0 then ["-"%char] else [] in
  let ds := hex_digits (Z.abs n) in
  string_of_list_ascii
    (sign ++ repeat "0"%char (width - length sign - length ds) ++ ds).

(** Reading hexadecimal digits back: most significant first for a
    rendered string, least significant first for the digit list. *)
Definition be_value (l : list ascii) : Z :=
  fold_left (fun v c => 16 * v + digit_value c) l 0.

Definition le_value (l : list ascii) : Z :=
  fold_right (fun c v => digit_value c + 16 * v) 0 l.

Definition hex_value (s : string) : Z :=
  be_value (list_ascii_of_string s).

Definition all_lower_hex (s : string) : bool :=
  forallb is_lower_hex (list_ascii_of_string s).

End PyFormat.

(** ** A small Python runtime: values, spans, heap, exceptions *)

Module Py.

(** Values stored in log records and passed as arguments; [VRef] is a
    reference to a dictionary on the heap. *)
Inductive value :=
| VNone
| VBool (b : bool)
| VInt (z : Z)
| VStr (s : string)
| VRef (d : nat).

(** References to dictionaries on the heap. *)
Definition loc := nat.

(** [opentelemetry.trace.SpanContext]: three integers; the identifiers
    are 128-bit and 64-bit numbers in every context the SDK generates or
    propagates, but the type itself is [int]. *)
Record SpanContext := mkSpanContext {
  trace_id : Z;
  span_id : Z;
  trace_flags : Z
}.

Inductive StatusCode := UNSET | OK | ERROR.

Record Span := mkSpan {
  recording : bool;
  span_context : SpanContext;
  attributes : gmap string value;
  events : list string;
  status : StatusCode
}.

Inductive exn :=
| AttributeError
| TypeError
| HTTPException (status_code : Z) (detail : string).

Inductive outcome (A : Type) :=
| Ret (a : A)
| Raise (e : exn).
Arguments Ret {A} a.
Arguments Raise {A} e.

(** The state a log call runs in: the dictionaries reachable by
    reference, the ambient current span ([None] when the lookup yields
    Python's [None]), the records handed to the sinks so far and the
    time spent sleeping, in milliseconds. *)
Record State := mkState {
  heap : gmap loc (gmap string value);
  current_span : option Span;
  emitted : list (string * gmap string value);
  slept_ms : Z
}.

Definition with_heap (h : gmap loc (gmap string value)) (st : State) : State :=
  mkState h (current_span st) (emitted st) (slept_ms st).

Definition with_current_span (sp : option Span) (st : State) : State :=
  mkState (heap st) sp (emitted st) (slept_ms st).

(** Computations: a state transformer that either returns or raises.
    The state is kept in both cases, as mutations made before an
    exception remain visible in Python. *)
Definition M (A : Type) : Type := State -> outcome A * State.

#[export] Instance M_ret : MRet M := fun A a st => (Ret a, st).

#[export] Instance M_bind : MBind M := fun A B f m st =>
  match m st with
  | (Ret a, st') => f a st'
  | (Raise e, st') => (Raise e, st')
  end.

Definition raise {A} (e : exn) : M A := fun st => (Raise e, st).

(** [trace.get_current_span()] *)
Definition get_current_span : M (option Span) :=
  fun st => (Ret (current_span st), st).

(** Truth value of [span] in [if span:]: [None] is false, a span object
    (which defines neither [__bool__] nor [__len__]) is true. *)
Definition truthy (span : option Span) : bool :=
  match span with Some _ => true | None => false end.

(** [span.get_span_context()]; on [None] the attribute lookup fails. *)
Definition get_span_context (span : option Span) : M SpanContext :=
  match span with
  | Some sp => mret (span_context sp)
  | None => raise AttributeError
  end.

(** [span.is_recording()] *)
Definition is_recording (span : option Span) : M bool :=
  match span with
  | Some sp => mret (recording sp)
  | None => raise AttributeError
  end.

(** [d[k] = v] on the dictionary that [d] refers to.  A reference that
    does not denote a dictionary does not support item assignment. *)
Definition dict_setitem (d : loc) (k : string) (v : value) : M unit :=
  fun st =>
    match heap st !! d with
    | Some fields => (Ret (), with_heap (<[d := <[k := v]> fields]> (heap st)) st)
    | None => (Raise TypeError, st)
    end.

(** [d.update({k1: v1, ...})]: the pairs are inserted from left to
    right.  On a reference that does not denote a dictionary it is the
    lookup of the method [update] that fails, an [AttributeError]. *)
Fixpoint dict_update_items (d : loc) (kvs : list (string * value)) : M unit :=
  match kvs with
  | [] => mret ()
  | (k, v) :: rest => dict_setitem d k v;; dict_update_items d rest
  end.

Definition dict_update (d : loc) (kvs : list (string * value)) : M unit :=
  fun st =>
    match heap st !! d with
    | Some _ => dict_update_items d kvs st
    | None => (Raise AttributeError, st)
    end.

(** A new dictionary object with the given contents. *)
Definition new_dict (fields : gmap string value) : M loc :=
  fun st =>
    let d := fresh (dom (heap st)) in
    (Ret d, with_heap (<[d := fields]> (heap st)) st).

(** Methods of the current span that mutate it.  A span that is not
    recording ignores them; on [None] the attribute lookup fails. *)
Definition update_span (f : Span -> Span) : M unit :=
  fun st =>
    match current_span st with
    | Some sp =>
        (Ret (), if recording sp then with_current_span (Some (f sp)) st else st)
    | None => (Raise AttributeError, st)
    end.

Definition set_attribute (k : string) (v : value) : M unit :=
  update_span (fun sp =>
    mkSpan (recording sp) (span_context sp) (<[k := v]> (attributes sp))
           (events sp) (status sp)).

Definition record_exception (msg : string) : M unit :=
  update_span (fun sp =>
    mkSpan (recording sp) (span_context sp) (attributes sp)
           (events sp ++ [msg]) (status sp)).

(** [span.set_status(code)]: a status that is already [OK] is final,
    and a call with [UNSET] is ignored. *)
Definition set_status (c : StatusCode) : M unit :=
  update_span (fun sp =>
    match status sp, c with
    | OK, _ => sp
    | _, UNSET => sp
    | _, _ =>
        mkSpan (recording sp) (span_context sp) (attributes sp) (events sp) c
    end).

(** [time.sleep], in milliseconds. *)
Definition sleep_ms (ms : Z) : M unit :=
  fun st =>
    (Ret (), mkState (heap st) (current_span st) (emitted st) (slept_ms st + ms)).

(** Hand the record behind [d] to the sinks under the given log method. *)
Definition emit (method_name : string) (d : loc) : M unit :=
  fun st =>
    match heap st !! d with
    | Some fields =>
        (Ret (), mkState (heap st) (current_span st)
                         (emitted st ++ [(method_name, fields)]) (slept_ms st))
    | None => (Raise TypeError, st)
    end.

(** The span states the specification tells apart: a current span whose
    context carries a non-zero trace identifier, and one that is moreover
    recording. *)
Definition has_trace (span : option Span) : bool :=
  match span with
  | Some sp => negb (trace_id (span_context sp) =? 0)
  | None => false
  end.

Definition recording_with_trace (span : option Span) : bool :=
  match span with
  | Some sp => recording sp && negb (trace_id (span_context sp) =? 0)
  | None => false
  end.

End Py.

Export Py.
Import PyFormat.

(** ** examples/fastapi-integration/main.py *)

Module FastapiIntegration.

Definition add_trace_info (logger method_name : value) (event_dict : loc) : M loc :=
  span ← get_current_span;
  (if truthy span then
     span_context ← get_span_context span;
     if negb (trace_id span_context =? 0) then
       dict_setitem event_dict "trace_id"
         (VStr (format_x 32 (trace_id span_context)));;
       dict_setitem event_dict "span_id"
         (VStr (format_x 16 (span_id span_context)))
     else mret ()
   else mret ());;
  mret event_dict.

Definition add_service_info (logger method_name : value) (event_dict : loc) : M loc :=
  dict_setitem event_dict "service_name" (VStr "fastapi-demo");;
  mret event_dict.

End FastapiIntegration.

(** ** examples/multi-app-integration/main.py *)

Module MultiAppIntegration.

(** [os.getenv(key, default)] over the process environment. *)
Definition getenv (environ : gmap string string) (key dflt : string) : string :=
match environ !! key with
| Some v => v
| None => dflt
end.

Definition OTEL_COLLECTOR_ENDPOINT (environ : gmap string string) : string :=
getenv environ "OTEL_EXPORTER_OTLP_ENDPOINT" "http://localhost:4317".

(** Keyword arguments of the OTLP exporters and of the batch processors. *)
Record OTLPExporter := mkOTLPExporter {
  endpoint : string;
  insecure : bool;
  compression : option string
}.

Record BatchProcessor := mkBatchProcessor {
  exporter : OTLPExporter;
  max_queue_size : Z;
  max_export_batch_size : Z;
  export_timeout_millis : Z
}.

Definition otlp_span_exporter (environ : gmap string string) : OTLPExporter :=
mkOTLPExporter (OTEL_COLLECTOR_ENDPOINT environ) true None.

(** The [BatchSpanProcessor] added to the tracer provider. *)
Definition span_processor (environ : gmap string string) : BatchProcessor :=
mkBatchProcessor (otlp_span_exporter environ) 512 128 30000.

(** [OTLPLogExporter] is created without a [compression] argument. *)
Definition otlp_log_exporter (environ : gmap string string) : OTLPExporter :=
mkOTLPExporter (OTEL_COLLECTOR_ENDPOINT environ) true None.

(** The [BatchLogRecordProcessor] added to the logger provider. *)
Definition log_record_processor (environ : gmap string string) : BatchProcessor :=
mkBatchProcessor (otlp_log_exporter environ) 512 128 30000.

Definition add_otel_context (logger method_name : value) (event_dict : loc) : M loc :=
span ← get_current_span;
recording_span ← (if truthy span then is_recording span else mret false);
(if (recording_span : bool) then
   span_context ← get_span_context span;
   if negb (trace_id span_context =? 0) then
     dict_setitem event_dict "trace_id"
       (VStr (format_x 32 (trace_id span_context)));;
     dict_setitem event_dict "span_id"
       (VStr (format_x 16 (span_id span_context)));;
     dict_setitem event_dict "trace_flags"
       (VInt (trace_flags span_context))
   else mret ()
 else mret ());;
mret event_dict.

Definition add_service_context (logger method_name : value) (event_dict : loc) : M loc :=
dict_update event_dict
  [("service_name"%string, VStr "multi-app-demo");
   ("service_version"%string, VStr "1.0.0");
   ("environment"%string, VStr "development")];;
mret event_dict.

(** A call [logger.<method_name>(event, **kw)]: structlog builds the event
    dictionary from the keyword arguments and the event, then runs the
    processor chain.  Of the chain only the two processors this file
    defines are modelled; the library processors around them (level
    filter, logger name, level, positional arguments, time stamp, stack
    and exception info, JSON rendering) are left out. *)
Definition log_call (method_name event : string) (kw : list (string * value)) : M unit :=
event_dict ← new_dict (<["event" := VStr event]> (list_to_map kw));
event_dict ← add_service_context VNone (VStr method_name) event_dict;
event_dict ← add_otel_context VNone (VStr method_name) event_dict;
emit method_name event_dict.

(** Objects bound to module-level names.  [ContextManager name] is what
    [tracer.start_as_current_span(name)] returns: the library builds it
    with [contextlib]'s generator context manager, whose instances are
    [ContextDecorator]s.  [Decorated cm func] is the wrapper that
    [ContextDecorator.__call__(cm, func)] returns. *)
Inductive pyobj :=
| Value (v : value)
| Function (params : nat) (code : list value -> M value)
| ContextManager (name : pyobj)
| Decorated (cm : pyobj) (func : pyobj).

Definition start_as_current_span (name : pyobj) : pyobj := ContextManager name.

Section Ambient.

(** The builtin [hash] on strings (salted per process, fixed within one
    process) and the reading of [datetime.now().isoformat()]. *)
Variable hash : string -> Z.
Variable now_isoformat : string.

(** Running a call inside the span of a context manager is the tracing
    library's business; it is a parameter here. *)
Variable with_span : pyobj -> M pyobj -> M pyobj.

(** Calling an object with positional arguments.  A plain value is not
    callable; a function checks its arity; a context manager accepts
    exactly one argument, the function to decorate, and returns the
    wrapper; the wrapper runs the function inside the context manager. *)
Fixpoint call (f : pyobj) (args : list value) : M pyobj :=
match f with
| Value _ => raise TypeError
| Function params code =>
    if Nat.eqb (length args) params
    then v ← code args; mret (Value v)
    else raise TypeError
| ContextManager _ =>
    match args with
    | [func] => mret (Decorated f (Value func))
    | _ => raise TypeError
    end
| Decorated cm func => with_span cm (call func args)
end.

(** The body of [def call_external_service(service_name: str, operation:
    str)].  [span] is the current span throughout, so the methods called
    on it act on the current span of the state. *)
Definition call_external_service_body (service_name operation : string) : M value :=
set_attribute "external.service.name" (VStr service_name);;
set_attribute "external.operation" (VStr operation);;
log_call "info" "调用外部服务"
  [("external_service"%string, VStr service_name);
   ("operation"%string, VStr operation);
   ("call_start"%string, VStr now_isoformat)];;
sleep_ms (100 + hash (service_name +:+ operation) mod 100);;
if hash (service_name +:+ operation) mod 10 =? 0 then
  record_exception (service_name +:+ " service temporarily unavailable");;
  set_status ERROR;;
  log_call "error" "外部服务调用失败"
    [("external_service"%string, VStr service_name);
     ("operation"%string, VStr operation);
     ("error_type"%string, VStr "service_unavailable")];;
  raise (HTTPException 503 (service_name +:+ " service unavailable"))
else
  log_call "info" "外部服务调用成功"
    [("external_service"%string, VStr service_name);
     ("operation"%string, VStr operation);
     ("response_status"%string, VStr "success")];;
  result ← new_dict (<["service" := VStr service_name]>
                      (<["result" := VStr (operation +:+ "_completed")]> ∅));
  mret (VRef result).

(** The function object made by the [def] statement, on string arguments. *)
Definition call_external_service_def : pyobj :=
Function 2 (fun args =>
  match args with
  | [VStr service_name; VStr operation] =>
      call_external_service_body service_name operation
  | _ => raise TypeError
  end).

(** The module-level name after [@tracer.start_as_current_span]: the
    decorator expression is the bound method itself, so the name is bound
    to [tracer.start_as_current_span(<the function>)]. *)
Definition call_external_service : pyobj :=
start_as_current_span call_external_service_def.

End Ambient.

End MultiAppIntegration.

(** ** Vocabulary of the specification *)

Module Enrichment.

(** A record after its [trace_id] and [span_id] entries were set from a
    span context, and after [trace_flags] was set as well. *)
Definition trace_fields (ctx : SpanContext) (fields : gmap string value)
  : gmap string value :=
  <["span_id" := VStr (format_x 16 (span_id ctx))]>
    (<["trace_id" := VStr (format_x 32 (trace_id ctx))]> fields).

Definition otel_fields (ctx : SpanContext) (fields : gmap string value)
  : gmap string value :=
  <["trace_flags" := VInt (trace_flags ctx)]> (trace_fields ctx fields).

(** The record carries the identifiers of the span as 32 and 16 lowercase
    hexadecimal characters that read back as the identifiers. *)
Definition ids_rendered (sp : Span) (fields : gmap string value) : Prop :=
  exists t s : string,
    fields !! "trace_id" = Some (VStr t)
    /\ fields !! "span_id" = Some (VStr s)
    /\ t = format_x 32 (trace_id (span_context sp))
    /\ s = format_x 16 (span_id (span_context sp))
    /\ String.length t = 32%nat /\ all_lower_hex t = true
    /\ hex_value t = trace_id (span_context sp)
    /\ String.length s = 16%nat /\ all_lower_hex s = true
    /\ hex_value s = span_id (span_context sp).

End Enrichment.

(** ** Sample inputs *)

Module Sample.

Definition context : SpanContext :=
  mkSpanContext 0x0af7651916cd43dd8448eb211c80319c 0x00f067aa0ba902b7 1.

Definition span (is_recording : bool) : Span :=
  mkSpan is_recording context ∅ [] UNSET.

(** The span the API hands out when no span is active: not recording,
    all identifiers zero. *)
Definition invalid_span : Span :=
  mkSpan false (mkSpanContext 0 0 0) ∅ [] UNSET.

Definition record : gmap string value :=
  <["event" := VStr "hello"]> (<["level" := VStr "info"]> ∅).

(** A record whose caller supplied its own [trace_id]. *)
Definition record_with_trace_id : gmap string value :=
  <["trace_id" := VStr "abc"]> record.

Definition state (fields : gmap string value) (current : option Span) : State :=
  mkState (<[0%nat := fields]> ∅) current [] 0.

End Sample.

(** ** structlog's bound logger, as both files configure it *)

Module Structlog.

(** The log methods the two files call on the bound logger. *)
Inductive log_method := LDebug | LInfo | LWarning | LError.

Definition method_name (m : log_method) : string :=
  match m with
  | LDebug => "debug"
  | LInfo => "info"
  | LWarning => "warning"
  | LError => "error"
  end.

(** Level numbers of the [logging] module. *)
Definition level_of (m : log_method) : Z :=
  match m with
  | LDebug => 10
  | LInfo => 20
  | LWarning => 30
  | LError => 40
  end.

(** Both files set the standard logger to [logging.INFO]
    ([root_logger.setLevel] and [logging.basicConfig]). *)
Definition INFO : Z := 20.

(** [event_dict = proc(logger, method_name, event_dict)] for each
    processor in turn. *)
Fixpoint run_processors (processors : list (value -> value -> loc -> M loc))
    (m : log_method) (event_dict : loc) : M loc :=
  match processors with
  | [] => mret event_dict
  | proc :: rest =>
      event_dict ← proc VNone (VStr (method_name m)) event_dict;
      run_processors rest m event_dict
  end.

Definition has_key (k : string) (kw : list (string * value)) : bool :=
  existsb (fun kv => String.eqb kv.1 k) kw.

(** The parameters that a log call binds positionally: the log methods
    have the signature [(self, event=None, *args, **kw)] and pass on to
    [_proxy_to_logger(self, method_name, event=None, ...)].  A keyword
    argument with one of these names gives the parameter a second value. *)
Definition bound_parameters : list string :=
  ["self"; "event"; "method_name"]%string.

Definition binds_twice (kw : list (string * value)) : bool :=
  existsb (fun k => has_key k kw) bound_parameters.

(** Keywords that library processors of the chains read:
    [PositionalArgumentsFormatter] formats the event with
    [positional_args], [add_logger_name] takes the name from [_record].
    Those processors are not modelled; the properties of log calls are
    stated for keyword arguments without these keys. *)
Definition library_keywords : list string :=
  ["positional_args"; "_record"]%string.

(** [JSONRenderer], last in both chains, serialises the values of the
    record and follows the dictionaries among them; the properties of
    log calls are stated for scalar values. *)
Definition scalar_values (kw : list (string * value)) : bool :=
  forallb (fun kv => match kv.2 with VRef _ => false | _ => true end) kw.

(** Keyword arguments the model covers in full. *)
Definition plain_keywords (kw : list (string * value)) : bool :=
  negb (binds_twice kw)
  && negb (existsb (fun k => has_key k kw) library_keywords)
  && scalar_values kw.

(** [logger.<method>(event, **kw)] on [structlog.stdlib.BoundLogger]: a
    keyword argument named like a bound parameter is a [TypeError] of
    the call itself.  Otherwise the event dictionary is built from the
    keyword arguments and the event and handed to the processors.
    [filter_by_level], first in both chains, drops the event below the
    level of the standard logger, and the call then returns without a
    record.  Of the other processors only those the files define are
    modelled (see [log_call]). *)
Definition bound_logger_call (processors : list (value -> value -> loc -> M loc))
    (m : log_method) (event : string) (kw : list (string * value)) : M unit :=
  if binds_twice kw then raise TypeError
  else
    event_dict ← new_dict (<["event" := VStr event]> (list_to_map kw));
    if level_of m <? INFO then mret ()
    else
      event_dict ← run_processors processors m event_dict;
      emit (method_name m) event_dict.

End Structlog.

(** ** Entering and leaving a span *)

Module Tracer.

Section Factory.

(** The span that [tracer.start_as_current_span(name)] starts under the
    given parent: sampling and identifier generation belong to the SDK
    and stay a parameter. *)
Variable new_span : string -> option Span -> Span.

(** [with tracer.start_as_current_span(name) as span: body]: the new
    span is current inside the block and the previous one is current
    again afterwards, whether the block returns or raises.  The span
    that ended is handed to the exporter and leaves the state. *)
Definition with_span_as_current {A} (name : string) (body : M A) : M A :=
  fun st =>
    let parent := current_span st in
    let (r, st') := body (with_current_span (Some (new_span name parent)) st) in
    (r, with_current_span parent st').

End Factory.

End Tracer.

(** ** Handlers of examples/fastapi-integration/main.py *)

Module FastapiHandlers.

Import Structlog Tracer FastapiIntegration.

Definition logger : log_method -> string -> list (string * value) -> M unit :=
  bound_logger_call [add_service_info; add_trace_info].

(** Outcome of a true division: the quotient, or the exception that the
    [try] block of [error_endpoint] catches. *)
Inductive division :=
| Quotient (numerator denominator : Z)
| ZeroDivisionError (message : string).

Definition truediv (a b : Z) : division :=
  if b =? 0 then ZeroDivisionError "division by zero" else Quotient a b.

Section Ambient.

Variable now_isoformat : string.
Variable new_span : string -> option Span -> Span.

Definition startup_event : M value :=
  logger LInfo "FastAPI 应用启动" [("event"%string, VStr "app_startup")];;
  mret VNone.

Definition shutdown_event : M value :=
  logger LInfo "FastAPI 应用关闭" [("event"%string, VStr "app_shutdown")];;
  mret VNone.

Definition root : M value :=
  logger LInfo "根路径被访问"
    [("endpoint"%string, VStr "/"); ("method"%string, VStr "GET")];;
  result ← new_dict (<["message" := VStr "Hello World"]>
                      (<["service" := VStr "fastapi-demo"]>
                         (<["timestamp" := VStr now_isoformat]> ∅)));
  mret (VRef result).

Definition health_check : M value :=
  logger LInfo "健康检查"
    [("endpoint"%string, VStr "/health"); ("method"%string, VStr "GET")];;
  result ← new_dict (<["status" := VStr "healthy"]>
                      (<["service" := VStr "fastapi-demo"]> ∅));
  mret (VRef result).

Definition error_endpoint : M value :=
  logger LError "模拟错误端点被调用"
    [("endpoint"%string, VStr "/error"); ("error_type"%string, VStr "demo")];;
  match truediv 1 0 with
  | Quotient _ _ => mret VNone
  | ZeroDivisionError e =>
      logger LError "捕获到异常"
        [("endpoint"%string, VStr "/error");
         ("error_type"%string, VStr "ZeroDivisionError");
         ("error_message"%string, VStr e);
         ("exc_info"%string, VBool true)];;
      raise (HTTPException 500 "这是一个示例错误")
  end.

Definition trace_example (item_id : string) : M value :=
  with_span_as_current new_span "process_item" (
    set_attribute "item.id" (VStr item_id);;
    set_attribute "operation" (VStr "trace_example");;
    logger LInfo "开始处理项目"
      [("endpoint"%string, VStr "/trace"); ("item_id"%string, VStr item_id);
       ("operation"%string, VStr "start")];;
    sleep_ms 100;;
    with_span_as_current new_span "validate_item" (
      set_attribute "validation.type" (VStr "basic");;
      logger LInfo "验证项目"
        [("item_id"%string, VStr item_id); ("operation"%string, VStr "validate")];;
      sleep_ms 50);;
    with_span_as_current new_span "process_business_logic" (
      set_attribute "business.type" (VStr "demo");;
      logger LInfo "执行业务逻辑"
        [("item_id"%string, VStr item_id);
         ("operation"%string, VStr "business_logic")];;
      sleep_ms 50);;
    logger LInfo "项目处理完成"
      [("endpoint"%string, VStr "/trace"); ("item_id"%string, VStr item_id);
       ("operation"%string, VStr "complete")];;
    span ← get_current_span;
    span_context ← get_span_context span;
    result ← new_dict (<["item_id" := VStr item_id]>
                        (<["status" := VStr "processed"]>
                           (<["trace_id" := VStr (format_x 32 (trace_id span_context))]>
                              (<["span_id" := VStr (format_x 16 (span_id span_context))]> ∅))));
    mret (VRef result)).

End Ambient.

End FastapiHandlers.

(** ** Handlers and helpers of examples/multi-app-integration/main.py *)

Module MultiAppHandlers.

Import Structlog Tracer MultiAppIntegration.

Definition logger : log_method -> string -> list (string * value) -> M unit :=
  bound_logger_call [add_service_context; add_otel_context].

(** [len(x)] on what a call returned: a string, or a dictionary behind a
    reference; nothing else in the model has a length. *)
Definition py_len (x : pyobj) : M Z :=
  match x with
  | Value (VStr s) => mret (Z.of_nat (String.length s))
  | Value (VRef d) =>
      fun st =>
        match heap st !! d with
        | Some fields => (Ret (Z.of_nat (size fields)), st)
        | None => (Raise TypeError, st)
        end
  | _ => raise TypeError
  end.

(** An object stored as a dictionary value.  The dictionaries of the
    model hold plain values only; a callable cannot be stored and is
    reported as a [TypeError]. *)
Definition as_value (x : pyobj) : M value :=
  match x with
  | Value v => mret v
  | _ => raise TypeError
  end.

Section Ambient.

Variable hash : string -> Z.

(** Readings of [datetime.now().isoformat()]: the first of a handler, and
    a later one where a handler reads the clock twice. *)
Variable now_isoformat : string.
Variable later_isoformat : string.

Variable with_span : pyobj -> M pyobj -> M pyobj.
Variable new_span : string -> option Span -> Span.

(** The body of [def simulate_db_query(query_type: str, entity_id: str)];
    as in [call_external_service_body], [span] is the current span. *)
Definition simulate_db_query_body (query_type entity_id : string) : M value :=
  set_attribute "db.operation" (VStr query_type);;
  set_attribute "db.entity.id" (VStr entity_id);;
  logger LInfo "执行数据库查询"
    [("db_operation"%string, VStr query_type);
     ("entity_id"%string, VStr entity_id);
     ("query_duration_hint"%string, VStr "simulated")];;
  sleep_ms (50 + hash entity_id mod 50);;
  if String.eqb query_type "select" then
    let result_count := hash entity_id mod 10 + 1 in
    set_attribute "db.result.count" (VInt result_count);;
    logger LInfo "数据库查询完成"
      [("result_count"%string, VInt result_count);
       ("query_success"%string, VBool true)];;
    result ← new_dict (<["count" := VInt result_count]>
                        (<["data" := VStr ("mock_data_for_" +:+ entity_id)]> ∅));
    mret (VRef result)
  else
    logger LInfo "数据库操作完成" [("operation_success"%string, VBool true)];;
    result ← new_dict (<["success" := VBool true]> ∅);
    mret (VRef result).

Definition simulate_db_query_def : pyobj :=
  Function 2 (fun args =>
    match args with
    | [VStr query_type; VStr entity_id] =>
        simulate_db_query_body query_type entity_id
    | _ => raise TypeError
    end).

(** The module-level name after the bare [@tracer.start_as_current_span]. *)
Definition simulate_db_query : pyobj :=
  start_as_current_span simulate_db_query_def.

Definition root : M value :=
  with_span_as_current new_span "health_check" (
    set_attribute "endpoint" (VStr "/");;
    set_attribute "operation.type" (VStr "health_check");;
    logger LInfo "健康检查请求"
      [("endpoint"%string, VStr "/"); ("method"%string, VStr "GET")];;
    result ← new_dict (<["service" := VStr "multi-app-demo"]>
                        (<["status" := VStr "healthy"]>
                           (<["timestamp" := VStr now_isoformat]>
                              (<["version" := VStr "1.0.0"]> ∅))));
    mret (VRef result)).

Definition get_user (user_id : string) : M value :=
  with_span_as_current new_span "get_user" (
    set_attribute "user.id" (VStr user_id);;
    set_attribute "operation.type" (VStr "user_lookup");;
    logger LInfo "获取用户信息请求"
      [("user_id"%string, VStr user_id);
       ("endpoint"%string, VStr "/api/users/{user_id}");
       ("method"%string, VStr "GET")];;
    user_data ← call with_span simulate_db_query [VStr "select"; VStr user_id];
    permissions ← call with_span (call_external_service hash now_isoformat)
                     [VStr "user-permissions"; VStr "get_permissions"];
    data ← as_value user_data;
    granted ← as_value permissions;
    result ← new_dict (<["user_id" := VStr user_id]>
                        (<["data" := data]>
                           (<["permissions" := granted]>
                              (<["retrieved_at" := VStr now_isoformat]> ∅))));
    data_fields_count ← py_len user_data;
    logger LInfo "用户信息获取成功"
      [("user_id"%string, VStr user_id);
       ("data_fields_count"%string, VInt data_fields_count);
       ("permissions_count"%string, VInt 1)];;
    mret (VRef result)).

Definition metrics_demo : M value :=
  with_span_as_current new_span "metrics_demo" (
    set_attribute "operation.type" (VStr "metrics_collection");;
    logger LInfo "指标收集演示" [("endpoint"%string, VStr "/api/metrics-demo")];;
    logger LDebug "调试信息"
      [("endpoint"%string, VStr "/api/metrics-demo");
       ("debug_info"%string, VStr "detailed_processing_info")];;
    logger LInfo "处理开始"
      [("operation"%string, VStr "metrics_collection");
       ("start_time"%string, VStr now_isoformat)];;
    sleep_ms 200;;
    logger LInfo "处理进行中"
      [("progress"%string, VInt 50);
       ("estimated_remaining_time"%string, VStr "5s")];;
    sleep_ms 100;;
    logger LInfo "处理完成"
      [("operation"%string, VStr "metrics_collection");
       ("end_time"%string, VStr later_isoformat);
       ("processing_time"%string, VStr "0.3s");
       ("records_processed"%string, VInt 100)];;
    logger LWarning "性能警告"
      [("metric_type"%string, VStr "response_time");
       ("value"%string, VStr "300ms");
       ("threshold"%string, VStr "200ms");
       ("recommendation"%string, VStr "consider_optimization")];;
    result ← new_dict (<["metrics_collected" := VBool true]>
                        (<["records_processed" := VInt 100]>
                           (<["processing_time" := VStr "0.3s"]>
                              (<["warnings" := VInt 1]> ∅))));
    mret (VRef result)).

End Ambient.

End MultiAppHandlers.

(** ** Records as the processor chains leave them *)

Module Records.

Import Enrichment.

(** The three entries [add_service_context] writes. *)
Definition service_fields (fields : gmap string value) : gmap string value :=
  <["environment" := VStr "development"]>
    (<["service_version" := VStr "1.0.0"]>
       (<["service_name" := VStr "multi-app-demo"]> fields)).

(** Keys that the library processors of both chains write or remove
    (logger name, level, time stamp, positional arguments, stack and
    exception info).  Those processors are not modelled, so nothing is
    stated about these keys. *)
Definition library_keys : list string :=
  ["logger"; "level"; "timestamp"; "positional_args";
   "stack_info"; "stack"; "exc_info"; "exception"]%string.

(** The event dictionary structlog starts from. *)
Definition event_fields (event : string) (kw : list (string * value))
  : gmap string value :=
  <["event" := VStr event]> (list_to_map kw).

(** The record of a log call of the fastapi example under a given
    current span, and that of the multi-app example. *)
Definition fastapi_record (current : option Span) (event : string)
    (kw : list (string * value)) : gmap string value :=
  let base := <["service_name" := VStr "fastapi-demo"]> (event_fields event kw) in
  match current with
  | Some sp =>
      if trace_id (span_context sp) =? 0 then base
      else trace_fields (span_context sp) base
  | None => base
  end.

Definition multi_app_record (current : option Span) (event : string)
    (kw : list (string * value)) : gmap string value :=
  let base := service_fields (event_fields event kw) in
  match current with
  | Some sp =>
      if recording sp && negb (trace_id (span_context sp) =? 0)
      then otel_fields (span_context sp) base
      else base
  | None => base
  end.

End Records.

(** ** Spans after the methods that mutate them *)

Module Spans.

(** The span after [set_attribute], [record_exception] and [set_status]:
    changed when it is recording, the same span otherwise. *)
Definition with_attribute (k : string) (v : value) (sp : Span) : Span :=
  if recording sp
  then mkSpan (recording sp) (span_context sp) (<[k := v]> (attributes sp))
              (events sp) (status sp)
  else sp.

Definition with_event (msg : string) (sp : Span) : Span :=
  if recording sp
  then mkSpan (recording sp) (span_context sp) (attributes sp)
              (events sp ++ [msg]) (status sp)
  else sp.

Definition with_status (c : StatusCode) (sp : Span) : Span :=
  if recording sp
  then match status sp, c with
       | OK, _ => sp
       | _, UNSET => sp
       | _, _ =>
           mkSpan (recording sp) (span_context sp) (attributes sp) (events sp) c
       end
  else sp.

End Spans.

(** * Properties *)

(** ** Hexadecimal rendering *)

Section HexFacts.

Implicit Types (n : Z) (k fuel : nat) (l : list ascii).

Lemma hex_digit_value (d : nat) :
  (d < 16)%nat -> digit_value (hex_digit d) = Z.of_nat d.
Proof.
  intros Hd.
  do 16 (destruct d as [|d]; [reflexivity|]).
  lia.
Qed.

Lemma hex_digit_lower (d : nat) :
  (d < 16)%nat -> is_lower_hex (hex_digit d) = true.
Proof.
  intros Hd.
  do 16 (destruct d as [|d]; [reflexivity|]).
  lia.
Qed.

Lemma mod16_nat n : (Z.to_nat (n mod 16) < 16)%nat.
Proof. pose proof (Z.mod_pos_bound n 16). lia. Qed.

Lemma hex_le_value fuel : forall n,
  0 <= n < 2 ^ Z.of_nat fuel -> le_value (hex_le fuel n) = n.
Proof.
  induction fuel as [|fuel IH]; intros n Hn.
  - simpl in *. lia.
  - cbn [hex_le le_value fold_right].
    rewrite hex_digit_value by apply mod16_nat.
    pose proof (Z.mod_pos_bound n 16).
    pose proof (Z.div_mod n 16).
    rewrite Z2Nat.id by lia.
    destruct (n / 16 =? 0) eqn:Hq.
    + apply Z.eqb_eq in Hq. simpl. lia.
    + apply Z.eqb_neq in Hq.
      fold (le_value (hex_le fuel (n / 16))).
      rewrite IH; [lia|].
      rewrite Nat2Z.inj_succ, Z.pow_succ_r in Hn by lia.
      split; [apply Z.div_pos; lia|].
      apply Z.div_lt_upper_bound; lia.
Qed.

Lemma hex_le_length fuel : forall n k,
  0 <= n < 16 ^ Z.of_nat k -> (1 <= k)%nat ->
  (length (hex_le fuel n) <= k)%nat.
Proof.
  induction fuel as [|fuel IH]; intros n k Hn Hk.
  - simpl. lia.
  - cbn [hex_le length].
    destruct (n / 16 =? 0) eqn:Hq.
    + simpl. lia.
    + apply Z.eqb_neq in Hq.
      destruct k as [|k]; [lia|].
      rewrite Nat2Z.inj_succ, Z.pow_succ_r in Hn by lia.
      assert (Hdiv : 0 <= n / 16 < 16 ^ Z.of_nat k).
      { split; [apply Z.div_pos; lia|].
        apply Z.div_lt_upper_bound; lia. }
      destruct k as [|k].
      * simpl in Hdiv. lia.
      * specialize (IH (n / 16) (S k) Hdiv). lia.
Qed.

Lemma hex_le_lower fuel : forall n,
  forallb is_lower_hex (hex_le fuel n) = true.
Proof.
  induction fuel as [|fuel IH]; intros n; [reflexivity|].
  cbn [hex_le forallb].
  rewrite hex_digit_lower by apply mod16_nat.
  destruct (n / 16 =? 0); [reflexivity|apply IH].
Qed.

Lemma be_value_rev l : be_value (rev l) = le_value l.
Proof.
  unfold be_value.
  induction l as [|c l IH]; [reflexivity|].
  simpl. rewrite fold_left_app. simpl. rewrite IH. unfold le_value. lia.
Qed.

Lemma be_value_zeros k l :
  be_value (repeat "0"%char k ++ l) = be_value l.
Proof.
  unfold be_value. rewrite fold_left_app.
  replace (fold_left (fun v c => 16 * v + digit_value c) (repeat "0"%char k) 0)
    with 0; [reflexivity|].
  induction k as [|k IH]; [reflexivity|]. simpl. exact IH.
Qed.

Lemma hex_digits_value n : 0 <= n -> be_value (hex_digits n) = n.
Proof.
  intros Hn. unfold hex_digits. rewrite be_value_rev.
  apply hex_le_value.
  split; [lia|].
  rewrite Nat2Z.inj_succ, Z2Nat.id by apply Z.log2_nonneg.
  destruct (Z.eq_dec n 0) as [->|Hne]; [reflexivity|].
  apply Z.log2_spec. lia.
Qed.

Lemma hex_digits_length n k :
  0 <= n < 16 ^ Z.of_nat k -> (1 <= k)%nat ->
  (length (hex_digits n) <= k)%nat.
Proof.
  intros Hn Hk. unfold hex_digits. rewrite length_rev.
  by apply hex_le_length.
Qed.

Lemma hex_digits_lower n : forallb is_lower_hex (hex_digits n) = true.
Proof.
  unfold hex_digits. apply forallb_forall. intros c Hc.
  apply in_rev in Hc.
  pose proof (hex_le_lower (S (Z.to_nat (Z.log2 n))) n) as Hall.
  rewrite forallb_forall in Hall. by apply Hall.
Qed.

Lemma string_of_list_length l :
  String.length (string_of_list_ascii l) = length l.
Proof. induction l as [|c l IH]; simpl; congruence. Qed.

(** A non-negative number below [16 ^ width] is rendered in exactly
    [width] lowercase hexadecimal digits that read back as the number. *)
Lemma format_x_spec (width : nat) n :
  (1 <= width)%nat -> 0 <= n < 16 ^ Z.of_nat width ->
  String.length (format_x width n) = width
  /\ all_lower_hex (format_x width n) = true
  /\ hex_value (format_x width n) = n.
Proof.
  intros Hw Hn.
  pose proof (hex_digits_length n width Hn Hw) as Hlen.
  unfold format_x, all_lower_hex, hex_value.
  destruct (n <? 0) eqn:Hneg; [apply Z.ltb_lt in Hneg; lia|].
  rewrite Z.abs_eq by lia. cbn [app length].
  rewrite string_of_list_length, list_ascii_of_string_of_list_ascii.
  repeat split.
  - rewrite length_app, repeat_length. lia.
  - rewrite forallb_app, hex_digits_lower, andb_true_r.
    generalize (width - 0 - length (hex_digits n))%nat as k.
    induction k as [|k IH]; [reflexivity|exact IH].
  - rewrite be_value_zeros. apply hex_digits_value. lia.
Qed.

End HexFacts.

Example format_x_255 : format_x 4 255 = "00ff"%string.
Proof. reflexivity. Qed.

Example format_x_negative : format_x 6 (-255) = "-000ff"%string.
Proof. reflexivity. Qed.

Example format_x_wider_than_width : format_x 2 4096 = "1000"%string.
Proof. reflexivity. Qed.

Example format_x_zero : format_x 16 0 = "0000000000000000"%string.
Proof. reflexivity. Qed.

(** ** The enrichers in closed form *)

Import FastapiIntegration MultiAppIntegration.

(** The fields [add_trace_info] writes for a span context. *)
Lemma add_trace_info_run logger method_name d st :
  add_trace_info logger method_name d st =
  match current_span st with
  | Some sp =>
      if trace_id (span_context sp) =? 0 then (Ret d, st)
      else
        match heap st !! d with
        | Some fields =>
            (Ret d,
             with_heap
               (<[d := <["span_id" := VStr (format_x 16 (span_id (span_context sp)))]>
                         (<["trace_id" := VStr (format_x 32 (trace_id (span_context sp)))]>
                            fields)]> (heap st)) st)
        | None => (Raise TypeError, st)
        end
  | None => (Ret d, st)
  end.
Proof.
  unfold add_trace_info, mbind, M_bind, mret, M_ret, get_current_span.
  destruct (current_span st) as [sp|] eqn:Hsp; cbn; [|reflexivity].
  destruct (trace_id (span_context sp) =? 0); cbn; [reflexivity|].
  unfold dict_setitem.
  destruct (heap st !! d) as [fields|] eqn:Hd; cbn; [|reflexivity].
  rewrite lookup_insert_eq. cbn. unfold with_heap. cbn.
  by rewrite insert_insert_eq.
Qed.

Lemma add_otel_context_run logger method_name d st :
  add_otel_context logger method_name d st =
  match current_span st with
  | Some sp =>
      if recording sp && negb (trace_id (span_context sp) =? 0) then
        match heap st !! d with
        | Some fields =>
            (Ret d,
             with_heap
               (<[d := <["trace_flags" := VInt (trace_flags (span_context sp))]>
                         (<["span_id" := VStr (format_x 16 (span_id (span_context sp)))]>
                            (<["trace_id" := VStr (format_x 32 (trace_id (span_context sp)))]>
                               fields))]> (heap st)) st)
        | None => (Raise TypeError, st)
        end
      else (Ret d, st)
  | None => (Ret d, st)
  end.
Proof.
  unfold add_otel_context, mbind, M_bind, mret, M_ret, get_current_span.
  destruct (current_span st) as [sp|] eqn:Hsp; cbn; [|reflexivity].
  destruct (recording sp); cbn; [|reflexivity].
  destruct (trace_id (span_context sp) =? 0); cbn; [reflexivity|].
  unfold dict_setitem.
  destruct (heap st !! d) as [fields|] eqn:Hd; cbn; [|reflexivity].
  rewrite lookup_insert_eq. cbn. rewrite lookup_insert_eq. cbn.
  unfold with_heap. cbn.
  by rewrite !insert_insert_eq.
Qed.

Import Enrichment.

Lemma trace_fields_trace_id ctx (fields : gmap string value) :
  trace_fields ctx fields !! "trace_id" = Some (VStr (format_x 32 (trace_id ctx))).
Proof. unfold trace_fields. by rewrite lookup_insert_ne, lookup_insert_eq. Qed.

Lemma trace_fields_span_id ctx (fields : gmap string value) :
  trace_fields ctx fields !! "span_id" = Some (VStr (format_x 16 (span_id ctx))).
Proof. unfold trace_fields. by rewrite lookup_insert_eq. Qed.

Lemma trace_fields_other ctx (fields : gmap string value) (k : string) :
  k <> "trace_id"%string -> k <> "span_id"%string ->
  trace_fields ctx fields !! k = fields !! k.
Proof. intros H1 H2. unfold trace_fields. by rewrite !lookup_insert_ne. Qed.

Lemma otel_fields_trace_flags ctx (fields : gmap string value) :
  otel_fields ctx fields !! "trace_flags" = Some (VInt (trace_flags ctx)).
Proof. unfold otel_fields. by rewrite lookup_insert_eq. Qed.

Lemma otel_fields_trace_id ctx (fields : gmap string value) :
  otel_fields ctx fields !! "trace_id" = Some (VStr (format_x 32 (trace_id ctx))).
Proof. unfold otel_fields. rewrite lookup_insert_ne by done. apply trace_fields_trace_id. Qed.

Lemma otel_fields_span_id ctx (fields : gmap string value) :
  otel_fields ctx fields !! "span_id" = Some (VStr (format_x 16 (span_id ctx))).
Proof. unfold otel_fields. rewrite lookup_insert_ne by done. apply trace_fields_span_id. Qed.

Lemma otel_fields_other ctx (fields : gmap string value) (k : string) :
  k <> "trace_id"%string -> k <> "span_id"%string -> k <> "trace_flags"%string ->
  otel_fields ctx fields !! k = fields !! k.
Proof.
  intros H1 H2 H3. unfold otel_fields.
  rewrite lookup_insert_ne by done. by apply trace_fields_other.
Qed.

Lemma trace_fields_dom ctx (fields : gmap string value) :
  dom fields ⊆ dom (trace_fields ctx fields).
Proof. unfold trace_fields. rewrite !dom_insert_L. set_solver. Qed.

Lemma otel_fields_dom ctx (fields : gmap string value) :
  dom fields ⊆ dom (otel_fields ctx fields).
Proof.
  unfold otel_fields. rewrite dom_insert_L.
  pose proof (trace_fields_dom ctx fields). set_solver.
Qed.

(** The two enrichers, by the span state that decides them. *)
Lemma add_trace_info_enriches logger method_name d fields st sp :
  heap st !! d = Some fields -> current_span st = Some sp ->
  trace_id (span_context sp) <> 0 ->
  add_trace_info logger method_name d st =
  (Ret d, with_heap (<[d := trace_fields (span_context sp) fields]> (heap st)) st).
Proof.
  intros Hd Hsp Hid. rewrite add_trace_info_run, Hsp, Hd.
  apply Z.eqb_neq in Hid. by rewrite Hid.
Qed.

Lemma add_trace_info_skips logger method_name d st :
  has_trace (current_span st) = false ->
  add_trace_info logger method_name d st = (Ret d, st).
Proof.
  intros Hno. rewrite add_trace_info_run.
  destruct (current_span st) as [sp|]; [|done].
  cbn in Hno. apply negb_false_iff in Hno. by rewrite Hno.
Qed.

Lemma add_otel_context_enriches logger method_name d fields st sp :
  heap st !! d = Some fields -> current_span st = Some sp ->
  recording sp = true -> trace_id (span_context sp) <> 0 ->
  add_otel_context logger method_name d st =
  (Ret d, with_heap (<[d := otel_fields (span_context sp) fields]> (heap st)) st).
Proof.
  intros Hd Hsp Hrec Hid. rewrite add_otel_context_run, Hsp, Hd, Hrec.
  apply Z.eqb_neq in Hid. by rewrite Hid.
Qed.

Lemma add_otel_context_skips logger method_name d st :
  recording_with_trace (current_span st) = false ->
  add_otel_context logger method_name d st = (Ret d, st).
Proof.
  intros Hno. rewrite add_otel_context_run.
  destruct (current_span st) as [sp|]; [|done].
  cbn in Hno. by rewrite Hno.
Qed.

Lemma has_trace_inv span :
  has_trace span = true ->
  exists sp, span = Some sp /\ trace_id (span_context sp) <> 0.
Proof.
  destruct span as [sp|]; [|done]. cbn. intros H.
  exists sp. split; [done|]. apply negb_true_iff in H. by apply Z.eqb_neq.
Qed.

Lemma recording_with_trace_inv span :
  recording_with_trace span = true ->
  exists sp, span = Some sp /\ recording sp = true
             /\ trace_id (span_context sp) <> 0.
Proof.
  destruct span as [sp|]; [|done]. cbn. intros H.
  apply andb_true_iff in H as [Hrec H].
  exists sp. repeat split; [done|]. apply negb_true_iff in H. by apply Z.eqb_neq.
Qed.

Lemma recording_with_trace_has_trace span :
  has_trace span = false -> recording_with_trace span = false.
Proof.
  destruct span as [sp|]; [|done]. cbn. intros ->. apply andb_false_r.
Qed.

(** ** The claims about the enrichers *)

(** C1 (as amended): each enricher returns the record it was given.
    [add_otel_context] has set [trace_id] and [span_id] in it exactly when
    the current span is recording and has a non-zero trace identifier;
    [add_trace_info] has set them exactly when the current span has a
    non-zero trace identifier, recording or not.  Otherwise the record,
    and the whole state, is unchanged. *)
Theorem enrichers_add_trace_fields logger method_name d fields st :
  heap st !! d = Some fields ->
  (exists st',
      add_otel_context logger method_name d st = (Ret d, st')
      /\ if recording_with_trace (current_span st)
         then exists sp, current_span st = Some sp
              /\ st' = with_heap (<[d := otel_fields (span_context sp) fields]> (heap st)) st
         else st' = st)
  /\
  (exists st',
      add_trace_info logger method_name d st = (Ret d, st')
      /\ if has_trace (current_span st)
         then exists sp, current_span st = Some sp
              /\ st' = with_heap (<[d := trace_fields (span_context sp) fields]> (heap st)) st
         else st' = st).
Proof.
  intros Hd. split.
  - destruct (recording_with_trace (current_span st)) eqn:Hq.
    + destruct (recording_with_trace_inv _ Hq) as (sp & Hsp & Hrec & Hid).
      eexists. split; [by eapply add_otel_context_enriches|].
      by exists sp.
    + exists st. split; [by apply add_otel_context_skips|done].
  - destruct (has_trace (current_span st)) eqn:Hq.
    + destruct (has_trace_inv _ Hq) as (sp & Hsp & Hid).
      eexists. split; [by eapply add_trace_info_enriches|].
      by exists sp.
    + exists st. split; [by apply add_trace_info_skips|done].
Qed.

Lemma enrichers_add_trace_fields_witness :
  (exists st',
      add_otel_context VNone VNone 0%nat
        (Sample.state Sample.record (Some (Sample.span true))) = (Ret 0%nat, st')
      /\ exists sp, Some (Sample.span true) = Some sp
         /\ st' = with_heap (<[0%nat := otel_fields (span_context sp) Sample.record]>
                               (<[0%nat := Sample.record]> ∅))
                            (Sample.state Sample.record (Some (Sample.span true))))
  /\
  (exists st',
      add_trace_info VNone VNone 0%nat
        (Sample.state Sample.record (Some (Sample.span true))) = (Ret 0%nat, st')
      /\ exists sp, Some (Sample.span true) = Some sp
         /\ st' = with_heap (<[0%nat := trace_fields (span_context sp) Sample.record]>
                               (<[0%nat := Sample.record]> ∅))
                            (Sample.state Sample.record (Some (Sample.span true)))).
Proof.
  apply (enrichers_add_trace_fields VNone VNone 0%nat Sample.record
           (Sample.state Sample.record (Some (Sample.span true)))).
  reflexivity.
Defined.

(** C1 as stated fails for [add_trace_info]: with a span that is not
    recording but carries a trace identifier, the record does not come
    back unchanged. *)
Lemma add_trace_info_ignores_recording :
  ~ (forall logger method_name d st,
        recording_with_trace (current_span st) = false ->
        snd (add_trace_info logger method_name d st) = st).
Proof.
  intros H.
  specialize (H VNone VNone 0%nat
                (Sample.state Sample.record (Some (Sample.span false))) eq_refl).
  apply (f_equal (fun s => heap s !! 0%nat ≫= (.!! "trace_id"))) in H.
  vm_compute in H. discriminate H.
Qed.

Lemma ids_rendered_intro sp (fields : gmap string value) :
  fields !! "trace_id" = Some (VStr (format_x 32 (trace_id (span_context sp)))) ->
  fields !! "span_id" = Some (VStr (format_x 16 (span_id (span_context sp)))) ->
  0 < trace_id (span_context sp) < 2 ^ 128 ->
  0 <= span_id (span_context sp) < 2 ^ 64 ->
  ids_rendered sp fields.
Proof.
  intros Ht Hs Htr Hsr.
  destruct (format_x_spec 32 (trace_id (span_context sp))) as (Ht1 & Ht2 & Ht3);
    [lia | change (16 ^ Z.of_nat 32) with (2 ^ 128); lia |].
  destruct (format_x_spec 16 (span_id (span_context sp))) as (Hs1 & Hs2 & Hs3);
    [lia | change (16 ^ Z.of_nat 16) with (2 ^ 64); lia |].
  unfold ids_rendered. eexists _, _. repeat split; eassumption || reflexivity.
Qed.

(** C2: while a recording span with a non-zero trace identifier is
    current (a 128-bit trace identifier, a 64-bit span identifier), the
    record that either enricher returns has [trace_id] set to the 32
    lowercase hexadecimal characters of the span's trace identifier and
    [span_id] set to the 16 lowercase hexadecimal characters of its span
    identifier. *)
Theorem enrichers_render_span_ids logger method_name d fields st sp :
  heap st !! d = Some fields ->
  current_span st = Some sp ->
  recording sp = true ->
  0 < trace_id (span_context sp) < 2 ^ 128 ->
  0 <= span_id (span_context sp) < 2 ^ 64 ->
  (exists st' fields',
      add_trace_info logger method_name d st = (Ret d, st')
      /\ heap st' !! d = Some fields' /\ ids_rendered sp fields')
  /\
  (exists st' fields',
      add_otel_context logger method_name d st = (Ret d, st')
      /\ heap st' !! d = Some fields' /\ ids_rendered sp fields').
Proof.
  intros Hd Hsp Hrec Htr Hsr.
  assert (Hid : trace_id (span_context sp) <> 0) by lia.
  split; eexists _, _.
  - split; [by eapply add_trace_info_enriches|].
    split; [apply lookup_insert_eq|].
    apply ids_rendered_intro; auto using trace_fields_trace_id, trace_fields_span_id.
  - split; [by eapply add_otel_context_enriches|].
    split; [apply lookup_insert_eq|].
    apply ids_rendered_intro; auto using otel_fields_trace_id, otel_fields_span_id.
Qed.

Lemma enrichers_render_span_ids_witness :
  (exists st' fields',
      add_trace_info VNone VNone 0%nat
        (Sample.state Sample.record (Some (Sample.span true))) = (Ret 0%nat, st')
      /\ heap st' !! 0%nat = Some fields'
      /\ ids_rendered (Sample.span true) fields')
  /\
  (exists st' fields',
      add_otel_context VNone VNone 0%nat
        (Sample.state Sample.record (Some (Sample.span true))) = (Ret 0%nat, st')
      /\ heap st' !! 0%nat = Some fields'
      /\ ids_rendered (Sample.span true) fields').
Proof.
  apply (enrichers_render_span_ids VNone VNone 0%nat Sample.record
           (Sample.state Sample.record (Some (Sample.span true)))
           (Sample.span true)).
  - reflexivity.
  - reflexivity.
  - reflexivity.
  - vm_compute. split; reflexivity.
  - vm_compute. split; [discriminate | reflexivity].
Defined.

Example add_trace_info_sample_trace_id :
  heap (snd (add_trace_info VNone VNone 0%nat
               (Sample.state Sample.record (Some (Sample.span true)))))
    !! 0%nat ≫= (.!! "trace_id")
  = Some (VStr "0af7651916cd43dd8448eb211c80319c").
Proof. vm_compute. reflexivity. Qed.

Example add_otel_context_sample_span_id :
  heap (snd (add_otel_context VNone VNone 0%nat
               (Sample.state Sample.record (Some (Sample.span true)))))
    !! 0%nat ≫= (.!! "span_id")
  = Some (VStr "00f067aa0ba902b7").
Proof. vm_compute. reflexivity. Qed.

(** C3 (as amended): with no active span (the lookup yields no span, or
    a span whose context has trace identifier 0) both enrichers return
    the reference they were given and leave the whole state as it was.
    The record behind it is the caller's record, entry for entry: it
    has a [trace_id] or a [span_id] exactly when the caller supplied
    one, and then with the caller's value. *)
Theorem enrichers_noop_without_trace logger method_name d fields st :
  has_trace (current_span st) = false ->
  heap st !! d = Some fields ->
  (exists st' fields',
      add_trace_info logger method_name d st = (Ret d, st') /\ st' = st
      /\ heap st' !! d = Some fields' /\ fields' = fields
      /\ fields' !! "trace_id" = fields !! "trace_id"
      /\ fields' !! "span_id" = fields !! "span_id")
  /\
  (exists st' fields',
      add_otel_context logger method_name d st = (Ret d, st') /\ st' = st
      /\ heap st' !! d = Some fields' /\ fields' = fields
      /\ fields' !! "trace_id" = fields !! "trace_id"
      /\ fields' !! "span_id" = fields !! "span_id").
Proof.
  intros Hno Hd. split; exists st, fields.
  - by rewrite add_trace_info_skips.
  - by rewrite add_otel_context_skips by by apply recording_with_trace_has_trace.
Qed.

Lemma enrichers_noop_without_trace_witness :
  (exists st' fields',
      add_trace_info VNone VNone 0%nat
        (Sample.state Sample.record_with_trace_id (Some Sample.invalid_span))
      = (Ret 0%nat, st')
      /\ st' = Sample.state Sample.record_with_trace_id (Some Sample.invalid_span)
      /\ heap st' !! 0%nat = Some fields'
      /\ fields' = Sample.record_with_trace_id
      /\ fields' !! "trace_id" = Sample.record_with_trace_id !! "trace_id"
      /\ fields' !! "span_id" = Sample.record_with_trace_id !! "span_id")
  /\
  (exists st' fields',
      add_otel_context VNone VNone 0%nat
        (Sample.state Sample.record_with_trace_id (Some Sample.invalid_span))
      = (Ret 0%nat, st')
      /\ st' = Sample.state Sample.record_with_trace_id (Some Sample.invalid_span)
      /\ heap st' !! 0%nat = Some fields'
      /\ fields' = Sample.record_with_trace_id
      /\ fields' !! "trace_id" = Sample.record_with_trace_id !! "trace_id"
      /\ fields' !! "span_id" = Sample.record_with_trace_id !! "span_id").
Proof.
  apply (enrichers_noop_without_trace VNone VNone 0%nat Sample.record_with_trace_id
           (Sample.state Sample.record_with_trace_id (Some Sample.invalid_span)));
    reflexivity.
Defined.

(** C3 as stated fails on a record whose caller supplied a [trace_id]:
    with no span at all, and with the invalid span whose trace
    identifier is 0, either enricher returns it with that field. *)
Lemma enricher_keeps_supplied_trace_id :
  ~ (forall logger method_name d st fields',
        current_span st = None ->
        heap (snd (add_otel_context logger method_name d st)) !! d = Some fields' ->
        fields' !! "trace_id" = None)
  /\
  ~ (forall logger method_name d st fields',
        current_span st = None ->
        heap (snd (add_trace_info logger method_name d st)) !! d = Some fields' ->
        fields' !! "trace_id" = None)
  /\
  ~ (forall logger method_name d st sp fields',
        current_span st = Some sp -> trace_id (span_context sp) = 0 ->
        heap (snd (add_otel_context logger method_name d st)) !! d = Some fields' ->
        fields' !! "trace_id" = None)
  /\
  ~ (forall logger method_name d st sp fields',
        current_span st = Some sp -> trace_id (span_context sp) = 0 ->
        heap (snd (add_trace_info logger method_name d st)) !! d = Some fields' ->
        fields' !! "trace_id" = None).
Proof.
  split; [|split; [|split]]; intros H.
  - specialize (H VNone VNone 0%nat
                  (Sample.state Sample.record_with_trace_id None)
                  Sample.record_with_trace_id eq_refl eq_refl).
    vm_compute in H. discriminate H.
  - specialize (H VNone VNone 0%nat
                  (Sample.state Sample.record_with_trace_id None)
                  Sample.record_with_trace_id eq_refl eq_refl).
    vm_compute in H. discriminate H.
  - specialize (H VNone VNone 0%nat
                  (Sample.state Sample.record_with_trace_id (Some Sample.invalid_span))
                  Sample.invalid_span Sample.record_with_trace_id
                  eq_refl eq_refl eq_refl).
    vm_compute in H. discriminate H.
  - specialize (H VNone VNone 0%nat
                  (Sample.state Sample.record_with_trace_id (Some Sample.invalid_span))
                  Sample.invalid_span Sample.record_with_trace_id
                  eq_refl eq_refl eq_refl).
    vm_compute in H. discriminate H.
Qed.

(** C4: on a record, whatever the ambient span (none, not recording,
    recording, trace identifier zero or not), both enrichers return that
    record and never raise.  With no active span, that is with no span
    at all or with a span whose context has trace identifier 0 (the
    invalid span the lookup yields when nothing is active), both return
    it and leave the whole state untouched. *)
Theorem enrichers_never_raise logger method_name d fields st :
  heap st !! d = Some fields ->
  (exists st', add_trace_info logger method_name d st = (Ret d, st'))
  /\ (exists st', add_otel_context logger method_name d st = (Ret d, st'))
  /\ (if has_trace (current_span st)
      then exists sp, current_span st = Some sp
                      /\ trace_id (span_context sp) <> 0
      else add_trace_info logger method_name d st = (Ret d, st)
           /\ add_otel_context logger method_name d st = (Ret d, st)).
Proof.
  intros Hd.
  destruct (has_trace (current_span st)) eqn:Hq.
  - destruct (has_trace_inv _ Hq) as (sp & Hsp & Hid).
    split; [eexists; by eapply add_trace_info_enriches|].
    split; [|by exists sp].
    rewrite add_otel_context_run, Hsp, Hd.
    destruct (recording sp && negb (trace_id (span_context sp) =? 0)); eauto.
  - pose proof (recording_with_trace_has_trace _ Hq) as Hq'.
    rewrite add_trace_info_skips, add_otel_context_skips by done.
    repeat split; eauto.
Qed.

Lemma enrichers_never_raise_witness :
  (exists st',
      add_trace_info VNone VNone 0%nat
        (Sample.state Sample.record (Some Sample.invalid_span))
      = (Ret 0%nat, st'))
  /\ (exists st',
      add_otel_context VNone VNone 0%nat
        (Sample.state Sample.record (Some Sample.invalid_span))
      = (Ret 0%nat, st'))
  /\ add_trace_info VNone VNone 0%nat
       (Sample.state Sample.record (Some Sample.invalid_span))
     = (Ret 0%nat, Sample.state Sample.record (Some Sample.invalid_span))
     /\ add_otel_context VNone VNone 0%nat
          (Sample.state Sample.record (Some Sample.invalid_span))
        = (Ret 0%nat, Sample.state Sample.record (Some Sample.invalid_span)).
Proof.
  apply (enrichers_never_raise VNone VNone 0%nat Sample.record
           (Sample.state Sample.record (Some Sample.invalid_span))).
  reflexivity.
Defined.

Example enrichers_silent_without_any_span :
  add_trace_info VNone VNone 0%nat (Sample.state Sample.record None)
  = (Ret 0%nat, Sample.state Sample.record None)
  /\ add_otel_context VNone VNone 0%nat (Sample.state Sample.record None)
     = (Ret 0%nat, Sample.state Sample.record None).
Proof. split; reflexivity. Qed.

Lemma with_heap_current_span h st : current_span (with_heap h st) = current_span st.
Proof. reflexivity. Qed.

Lemma add_trace_info_span logger method_name d st :
  current_span (snd (add_trace_info logger method_name d st)) = current_span st.
Proof.
  rewrite add_trace_info_run.
  destruct (current_span st) as [sp|] eqn:Hsp; [|done].
  destruct (trace_id (span_context sp) =? 0); [done|].
  destruct (heap st !! d); done.
Qed.

Lemma add_otel_context_span logger method_name d st :
  current_span (snd (add_otel_context logger method_name d st)) = current_span st.
Proof.
  rewrite add_otel_context_run.
  destruct (current_span st) as [sp|] eqn:Hsp; [|done].
  destruct (recording sp && negb (trace_id (span_context sp) =? 0)); [|done].
  destruct (heap st !! d); done.
Qed.

Lemma trace_fields_idem ctx (fields : gmap string value) :
  trace_fields ctx (trace_fields ctx fields) = trace_fields ctx fields.
Proof.
  apply map_eq. intros k. unfold trace_fields.
  rewrite !lookup_insert. repeat case_decide; done.
Qed.

Lemma otel_fields_idem ctx (fields : gmap string value) :
  otel_fields ctx (otel_fields ctx fields) = otel_fields ctx fields.
Proof.
  apply map_eq. intros k. unfold otel_fields, trace_fields.
  rewrite !lookup_insert. repeat case_decide; done.
Qed.

Lemma with_heap_twice h h' st : with_heap h (with_heap h' st) = with_heap h st.
Proof. reflexivity. Qed.

Lemma add_trace_info_twice logger method_name d st :
  (add_trace_info logger method_name d ≫= add_trace_info logger method_name) st
  = add_trace_info logger method_name d st.
Proof.
  unfold mbind, M_bind.
  destruct (has_trace (current_span st)) eqn:Hq.
  - destruct (has_trace_inv _ Hq) as (sp & Hsp & Hid).
    destruct (heap st !! d) as [fields|] eqn:Hd.
    + rewrite (add_trace_info_enriches _ _ _ _ _ _ Hd Hsp Hid).
      rewrite (add_trace_info_enriches _ _ d (trace_fields (span_context sp) fields)
                 _ sp); [| apply lookup_insert_eq | done | done].
      cbn [heap with_heap].
      by rewrite trace_fields_idem, insert_insert_eq.
    + rewrite add_trace_info_run, Hsp, Hd.
      apply Z.eqb_neq in Hid. by rewrite Hid.
  - by rewrite !add_trace_info_skips.
Qed.

Lemma add_otel_context_twice logger method_name d st :
  (add_otel_context logger method_name d ≫= add_otel_context logger method_name) st
  = add_otel_context logger method_name d st.
Proof.
  unfold mbind, M_bind.
  destruct (recording_with_trace (current_span st)) eqn:Hq.
  - destruct (recording_with_trace_inv _ Hq) as (sp & Hsp & Hrec & Hid).
    destruct (heap st !! d) as [fields|] eqn:Hd.
    + rewrite (add_otel_context_enriches _ _ _ _ _ _ Hd Hsp Hrec Hid).
      rewrite (add_otel_context_enriches _ _ d (otel_fields (span_context sp) fields)
                 _ sp); [| apply lookup_insert_eq | done | done | done].
      cbn [heap with_heap].
      by rewrite otel_fields_idem, insert_insert_eq.
    + rewrite add_otel_context_run, Hsp, Hd, Hrec.
      apply Z.eqb_neq in Hid. by rewrite Hid.
  - by rewrite !add_otel_context_skips.
Qed.

(** C5: with the ambient span fixed, running an enricher on the record it
    returned gives the same outcome and the same state as running it
    once, and an enricher leaves the current span, context included, as
    it found it. *)
Theorem enrichers_idempotent logger method_name d st :
  (add_trace_info logger method_name d ≫= add_trace_info logger method_name) st
  = add_trace_info logger method_name d st
  /\ (add_otel_context logger method_name d ≫= add_otel_context logger method_name) st
     = add_otel_context logger method_name d st
  /\ current_span (snd (add_trace_info logger method_name d st)) = current_span st
  /\ current_span (snd (add_otel_context logger method_name d st)) = current_span st.
Proof.
  repeat split.
  - apply add_trace_info_twice.
  - apply add_otel_context_twice.
  - apply add_trace_info_span.
  - apply add_otel_context_span.
Qed.

Example add_otel_context_twice_sample :
  (add_otel_context VNone VNone 0%nat ≫= add_otel_context VNone VNone)
    (Sample.state Sample.record_with_trace_id (Some (Sample.span true)))
  = add_otel_context VNone VNone 0%nat
      (Sample.state Sample.record_with_trace_id (Some (Sample.span true))).
Proof. apply add_otel_context_twice. Qed.

(** C6: whatever the ambient span, every key of the record given to an
    enricher is a key of the record it returns. *)
Theorem enrichers_keep_keys logger method_name d fields st :
  heap st !! d = Some fields ->
  (exists st' fields',
      add_trace_info logger method_name d st = (Ret d, st')
      /\ heap st' !! d = Some fields' /\ dom fields ⊆ dom fields')
  /\
  (exists st' fields',
      add_otel_context logger method_name d st = (Ret d, st')
      /\ heap st' !! d = Some fields' /\ dom fields ⊆ dom fields').
Proof.
  intros Hd. split.
  - destruct (has_trace (current_span st)) eqn:Hq.
    + destruct (has_trace_inv _ Hq) as (sp & Hsp & Hid).
      eexists _, _. split; [by eapply add_trace_info_enriches|].
      split; [apply lookup_insert_eq | apply trace_fields_dom].
    + exists st, fields. by rewrite add_trace_info_skips.
  - destruct (recording_with_trace (current_span st)) eqn:Hq.
    + destruct (recording_with_trace_inv _ Hq) as (sp & Hsp & Hrec & Hid).
      eexists _, _. split; [by eapply add_otel_context_enriches|].
      split; [apply lookup_insert_eq | apply otel_fields_dom].
    + exists st, fields. by rewrite add_otel_context_skips.
Qed.

Lemma enrichers_keep_keys_witness :
  (exists st' fields',
      add_trace_info VNone VNone 0%nat
        (Sample.state Sample.record_with_trace_id (Some (Sample.span true)))
      = (Ret 0%nat, st')
      /\ heap st' !! 0%nat = Some fields'
      /\ dom Sample.record_with_trace_id ⊆ dom fields')
  /\
  (exists st' fields',
      add_otel_context VNone VNone 0%nat
        (Sample.state Sample.record_with_trace_id (Some (Sample.span true)))
      = (Ret 0%nat, st')
      /\ heap st' !! 0%nat = Some fields'
      /\ dom Sample.record_with_trace_id ⊆ dom fields').
Proof.
  apply (enrichers_keep_keys VNone VNone 0%nat Sample.record_with_trace_id
           (Sample.state Sample.record_with_trace_id (Some (Sample.span true)))).
  reflexivity.
Defined.

(** C7: exactly one variant injects trace flags.  When [add_otel_context]
    enriches a record it sets [trace_flags] from the context of the
    current span, and leaves the record alone otherwise; [add_trace_info]
    changes no entry other than [trace_id] and [span_id], so the
    [trace_flags] entry of its result is that of its input, absent when
    it was absent. *)
Theorem only_otel_context_sets_trace_flags logger method_name d fields st :
  heap st !! d = Some fields ->
  (exists st' fields',
      add_otel_context logger method_name d st = (Ret d, st')
      /\ heap st' !! d = Some fields'
      /\ if recording_with_trace (current_span st)
         then exists sp, current_span st = Some sp
              /\ fields' !! "trace_flags" = Some (VInt (trace_flags (span_context sp)))
         else fields' = fields)
  /\
  (exists st' fields',
      add_trace_info logger method_name d st = (Ret d, st')
      /\ heap st' !! d = Some fields'
      /\ fields' !! "trace_flags" = fields !! "trace_flags"
      /\ forall k : string,
           k <> "trace_id"%string -> k <> "span_id"%string ->
           fields' !! k = fields !! k).
Proof.
  intros Hd. split.
  - destruct (recording_with_trace (current_span st)) eqn:Hq.
    + destruct (recording_with_trace_inv _ Hq) as (sp & Hsp & Hrec & Hid).
      eexists _, _. split; [by eapply add_otel_context_enriches|].
      split; [apply lookup_insert_eq|].
      exists sp. split; [done | apply otel_fields_trace_flags].
    + exists st, fields. by rewrite add_otel_context_skips.
  - destruct (has_trace (current_span st)) eqn:Hq.
    + destruct (has_trace_inv _ Hq) as (sp & Hsp & Hid).
      eexists _, _. split; [by eapply add_trace_info_enriches|].
      split; [apply lookup_insert_eq|].
      split; [by apply trace_fields_other | apply trace_fields_other].
    + exists st, fields. by rewrite add_trace_info_skips.
Qed.

Lemma only_otel_context_sets_trace_flags_witness :
  (exists st' fields',
      add_otel_context VNone VNone 0%nat
        (Sample.state Sample.record (Some (Sample.span true))) = (Ret 0%nat, st')
      /\ heap st' !! 0%nat = Some fields'
      /\ exists sp, Some (Sample.span true) = Some sp
         /\ fields' !! "trace_flags" = Some (VInt (trace_flags (span_context sp))))
  /\
  (exists st' fields',
      add_trace_info VNone VNone 0%nat
        (Sample.state Sample.record (Some (Sample.span true))) = (Ret 0%nat, st')
      /\ heap st' !! 0%nat = Some fields'
      /\ fields' !! "trace_flags" = Sample.record !! "trace_flags"
      /\ forall k : string,
           k <> "trace_id"%string -> k <> "span_id"%string ->
           fields' !! k = Sample.record !! k).
Proof.
  apply (only_otel_context_sets_trace_flags VNone VNone 0%nat Sample.record
           (Sample.state Sample.record (Some (Sample.span true)))).
  reflexivity.
Defined.

Example add_trace_info_sample_no_trace_flags :
  heap (snd (add_trace_info VNone VNone 0%nat
               (Sample.state Sample.record (Some (Sample.span true)))))
    !! 0%nat ≫= (.!! "trace_flags")
  = None.
Proof. vm_compute. reflexivity. Qed.

Example add_otel_context_sample_trace_flags :
  heap (snd (add_otel_context VNone VNone 0%nat
               (Sample.state Sample.record (Some (Sample.span true)))))
    !! 0%nat ≫= (.!! "trace_flags")
  = Some (VInt 1).
Proof. vm_compute. reflexivity. Qed.

(** C10: with a current span whose context has a non-zero trace
    identifier, [add_trace_info] returns the reference it was given, the
    [trace_id] and [span_id] entries behind it are those of the span
    whatever the caller had put there, every other entry is as before and
    no other object is touched.  [add_otel_context] does the same, for
    [trace_flags] too, when the span is recording, and nothing when it is
    not. *)
Theorem enrichers_overwrite_trace_keys logger method_name d fields st sp :
  heap st !! d = Some fields ->
  current_span st = Some sp ->
  trace_id (span_context sp) <> 0 ->
  (exists st' fields',
      add_trace_info logger method_name d st = (Ret d, st')
      /\ heap st' !! d = Some fields'
      /\ fields' !! "trace_id" = Some (VStr (format_x 32 (trace_id (span_context sp))))
      /\ fields' !! "span_id" = Some (VStr (format_x 16 (span_id (span_context sp))))
      /\ (forall k : string,
            k <> "trace_id"%string -> k <> "span_id"%string ->
            fields' !! k = fields !! k)
      /\ (forall d' : loc, d' <> d -> heap st' !! d' = heap st !! d'))
  /\
  (if recording sp then
     exists st' fields',
       add_otel_context logger method_name d st = (Ret d, st')
       /\ heap st' !! d = Some fields'
       /\ fields' !! "trace_id" = Some (VStr (format_x 32 (trace_id (span_context sp))))
       /\ fields' !! "span_id" = Some (VStr (format_x 16 (span_id (span_context sp))))
       /\ fields' !! "trace_flags" = Some (VInt (trace_flags (span_context sp)))
       /\ (forall k : string,
             k <> "trace_id"%string -> k <> "span_id"%string ->
             k <> "trace_flags"%string ->
             fields' !! k = fields !! k)
       /\ (forall d' : loc, d' <> d -> heap st' !! d' = heap st !! d')
   else add_otel_context logger method_name d st = (Ret d, st)).
Proof.
  intros Hd Hsp Hid. split.
  - eexists _, _. split; [by eapply add_trace_info_enriches|].
    split; [apply lookup_insert_eq|].
    split; [apply trace_fields_trace_id|].
    split; [apply trace_fields_span_id|].
    split; [apply trace_fields_other|].
    intros d' Hd'. cbn. by rewrite lookup_insert_ne.
  - destruct (recording sp) eqn:Hrec.
    + eexists _, _. split; [by eapply add_otel_context_enriches|].
      split; [apply lookup_insert_eq|].
      split; [apply otel_fields_trace_id|].
      split; [apply otel_fields_span_id|].
      split; [apply otel_fields_trace_flags|].
      split; [apply otel_fields_other|].
      intros d' Hd'. cbn. by rewrite lookup_insert_ne.
    + apply add_otel_context_skips. rewrite Hsp. cbn. by rewrite Hrec.
Qed.

Lemma enrichers_overwrite_trace_keys_witness :
  (exists st' fields',
      add_trace_info VNone VNone 0%nat
        (Sample.state Sample.record_with_trace_id (Some (Sample.span true)))
      = (Ret 0%nat, st')
      /\ heap st' !! 0%nat = Some fields'
      /\ fields' !! "trace_id"
         = Some (VStr (format_x 32 (trace_id Sample.context)))
      /\ fields' !! "span_id"
         = Some (VStr (format_x 16 (span_id Sample.context)))
      /\ (forall k : string,
            k <> "trace_id"%string -> k <> "span_id"%string ->
            fields' !! k = Sample.record_with_trace_id !! k)
      /\ (forall d' : loc, d' <> 0%nat ->
            heap st' !! d'
            = heap (Sample.state Sample.record_with_trace_id
                      (Some (Sample.span true))) !! d'))
  /\
  (exists st' fields',
      add_otel_context VNone VNone 0%nat
        (Sample.state Sample.record_with_trace_id (Some (Sample.span true)))
      = (Ret 0%nat, st')
      /\ heap st' !! 0%nat = Some fields'
      /\ fields' !! "trace_id"
         = Some (VStr (format_x 32 (trace_id Sample.context)))
      /\ fields' !! "span_id"
         = Some (VStr (format_x 16 (span_id Sample.context)))
      /\ fields' !! "trace_flags" = Some (VInt (trace_flags Sample.context))
      /\ (forall k : string,
            k <> "trace_id"%string -> k <> "span_id"%string ->
            k <> "trace_flags"%string ->
            fields' !! k = Sample.record_with_trace_id !! k)
      /\ (forall d' : loc, d' <> 0%nat ->
            heap st' !! d'
            = heap (Sample.state Sample.record_with_trace_id
                      (Some (Sample.span true))) !! d')).
Proof.
  apply (enrichers_overwrite_trace_keys VNone VNone 0%nat
           Sample.record_with_trace_id
           (Sample.state Sample.record_with_trace_id (Some (Sample.span true)))
           (Sample.span true)).
  - reflexivity.
  - reflexivity.
  - vm_compute. discriminate.
Defined.

Example add_otel_context_overwrites_sample :
  heap (snd (add_otel_context VNone VNone 0%nat
               (Sample.state Sample.record_with_trace_id (Some (Sample.span true)))))
    !! 0%nat ≫= (.!! "trace_id")
  = Some (VStr "0af7651916cd43dd8448eb211c80319c").
Proof. vm_compute. reflexivity. Qed.

(** ** Exporter configuration *)

(** C9: both batch processors of the multi-app example are configured
    with a queue of 512, export batches of 128 and an export timeout of
    30000 ms (30 s), and both exporters send to http://localhost:4317
    when OTEL_EXPORTER_OTLP_ENDPOINT is not set. *)
Theorem otlp_pipeline_configuration (environ : gmap string string) :
  environ !! "OTEL_EXPORTER_OTLP_ENDPOINT" = None ->
  OTEL_COLLECTOR_ENDPOINT environ = "http://localhost:4317"%string
  /\ span_processor environ
     = mkBatchProcessor (mkOTLPExporter "http://localhost:4317" true None)
                        512 128 (30 * 1000)
  /\ log_record_processor environ
     = mkBatchProcessor (mkOTLPExporter "http://localhost:4317" true None)
                        512 128 (30 * 1000)
  /\ max_queue_size (span_processor environ) = 512
  /\ max_export_batch_size (span_processor environ) = 128
  /\ export_timeout_millis (span_processor environ) = 30000
  /\ endpoint (exporter (span_processor environ)) = "http://localhost:4317"%string
  /\ max_queue_size (log_record_processor environ) = 512
  /\ max_export_batch_size (log_record_processor environ) = 128
  /\ export_timeout_millis (log_record_processor environ) = 30000
  /\ endpoint (exporter (log_record_processor environ)) = "http://localhost:4317"%string.
Proof.
  intros Henv.
  unfold span_processor, log_record_processor, otlp_span_exporter,
    otlp_log_exporter, OTEL_COLLECTOR_ENDPOINT, getenv.
  rewrite Henv. cbn. repeat split.
Qed.

Lemma otlp_pipeline_configuration_witness :
  let environ : gmap string string := <["HOSTNAME" := "web-1"%string]> ∅ in
  OTEL_COLLECTOR_ENDPOINT environ = "http://localhost:4317"%string
  /\ span_processor environ
     = mkBatchProcessor (mkOTLPExporter "http://localhost:4317" true None)
                        512 128 (30 * 1000)
  /\ log_record_processor environ
     = mkBatchProcessor (mkOTLPExporter "http://localhost:4317" true None)
                        512 128 (30 * 1000)
  /\ max_queue_size (span_processor environ) = 512
  /\ max_export_batch_size (span_processor environ) = 128
  /\ export_timeout_millis (span_processor environ) = 30000
  /\ endpoint (exporter (span_processor environ)) = "http://localhost:4317"%string
  /\ max_queue_size (log_record_processor environ) = 512
  /\ max_export_batch_size (log_record_processor environ) = 128
  /\ export_timeout_millis (log_record_processor environ) = 30000
  /\ endpoint (exporter (log_record_processor environ)) = "http://localhost:4317"%string.
Proof.
  apply (otlp_pipeline_configuration (<["HOSTNAME" := "web-1"%string]> ∅)).
  reflexivity.
Defined.

Example endpoint_from_environment :
  endpoint (exporter (span_processor
    (<["OTEL_EXPORTER_OTLP_ENDPOINT" := "http://collector:4317"%string]> ∅)))
  = "http://collector:4317"%string.
Proof. reflexivity. Qed.

(** ** The simulated external service call *)

Lemma dict_setitem_run d k v (fields : gmap string value) h cur em sl :
  h !! d = Some fields ->
  dict_setitem d k v (mkState h cur em sl)
  = (Ret (), mkState (<[d := <[k := v]> fields]> h) cur em sl).
Proof. intros Hd. unfold dict_setitem. cbn. by rewrite Hd. Qed.

Lemma dict_update_items_run d kvs : forall (fields : gmap string value) h cur em sl,
  h !! d = Some fields ->
  exists fields' h',
    dict_update_items d kvs (mkState h cur em sl) = (Ret (), mkState h' cur em sl)
    /\ h' !! d = Some fields'.
Proof.
  induction kvs as [|[k v] kvs IH]; intros fields h cur em sl Hd.
  - by exists fields, h.
  - cbn [dict_update_items]. unfold mbind, M_bind.
    rewrite (dict_setitem_run _ _ _ _ _ _ _ _ Hd).
    eapply IH. apply lookup_insert_eq.
Qed.

Lemma dict_update_run d kvs (fields : gmap string value) h cur em sl :
  h !! d = Some fields ->
  exists fields' h',
    dict_update d kvs (mkState h cur em sl) = (Ret (), mkState h' cur em sl)
    /\ h' !! d = Some fields'.
Proof.
  intros Hd. unfold dict_update. cbn [heap]. rewrite Hd.
  by eapply dict_update_items_run.
Qed.

(** A log call returns, whatever the state, and touches neither the
    current span nor the time slept; it hands one record to the sinks. *)
Lemma log_call_run method_name event kw h cur em sl :
  exists h' fields,
    log_call method_name event kw (mkState h cur em sl)
    = (Ret (), mkState h' cur (em ++ [(method_name, fields)]) sl).
Proof.
  unfold log_call, mbind, M_bind, new_dict, with_heap.
  cbn [heap current_span emitted slept_ms].
  set (d := fresh (dom h)).
  set (fields0 := <["event" := VStr event]> (list_to_map kw) : gmap string value).
  unfold add_service_context, mbind, M_bind.
  destruct (dict_update_run d
              [("service_name"%string, VStr "multi-app-demo");
               ("service_version"%string, VStr "1.0.0");
               ("environment"%string, VStr "development")]
              fields0 (<[d := fields0]> h) cur em sl (lookup_insert_eq _ _ _))
    as (fields1 & h1 & -> & Hd1).
  cbn [mret M_ret].
  rewrite add_otel_context_run. cbn [current_span heap].
  rewrite Hd1.
  unfold emit.
  destruct cur as [sp|]; [destruct (recording sp && negb (trace_id (span_context sp) =? 0))|];
    cbn; rewrite ?lookup_insert_eq, ?Hd1; eauto.
Qed.

Ltac step_log_call :=
  match goal with
  | |- context [log_call ?m ?e ?kw (mkState ?h ?c ?em ?sl)] =>
      let h' := fresh "h" in
      let fields := fresh "fields" in
      destruct (log_call_run m e kw h c em sl) as (h' & fields & ->);
      cbn [current_span heap emitted slept_ms recording span_context
           attributes events status]
  end.

(** What the body of the function does once it runs with a current span:
    it raises HTTP 503 "service unavailable" exactly when the hash of the
    concatenated names is divisible by 10, having recorded the exception
    and set the error status on a recording span, and otherwise returns a
    new dictionary with the service and the completed operation. *)
Lemma call_external_service_body_outcome hash now service_name operation st sp :
  current_span st = Some sp ->
  if hash (service_name +:+ operation) mod 10 =? 0 then
    exists st',
      call_external_service_body hash now service_name operation st
      = (Raise (HTTPException 503 (service_name +:+ " service unavailable")), st')
      /\ if recording sp then
           exists sp', current_span st' = Some sp'
             /\ status sp' = match status sp with OK => OK | _ => ERROR end
             /\ events sp'
                = events sp ++ [service_name +:+ " service temporarily unavailable"]
         else current_span st' = Some sp
  else
    exists st' result,
      call_external_service_body hash now service_name operation st
      = (Ret (VRef result), st')
      /\ heap st' !! result
         = Some (<["service" := VStr service_name]>
                   (<["result" := VStr (operation +:+ "_completed")]> ∅)).
Proof.
  intros Hsp. destruct st as [h cur em sl]. cbn in Hsp. subst cur.
  destruct sp as [rec ctx attrs evs stt].
  destruct stt.
  all: unfold call_external_service_body, mbind, M_bind, set_attribute,
    record_exception, set_status, update_span, sleep_ms, raise, new_dict,
    with_current_span, with_heap.
  all: destruct (hash (service_name +:+ operation) mod 10 =? 0), rec;
    cbn [current_span heap emitted slept_ms recording span_context attributes
         events status];
    repeat step_log_call;
    cbn [current_span heap emitted slept_ms recording span_context attributes
         events status].
  all: first
    [ eexists; split; [reflexivity|]; cbn; by eauto
    | eexists _, _; split; [reflexivity|]; cbn; apply lookup_insert_eq ].
Qed.

(** Called on two strings, the function object runs its body. *)
Lemma call_external_service_def_call hash now with_span service_name operation st :
  call with_span (call_external_service_def hash now)
       [VStr service_name; VStr operation] st
  = (call_external_service_body hash now service_name operation
       ≫= fun v => mret (Value v)) st.
Proof. reflexivity. Qed.

(** C8 on the code: the name [call_external_service] is bound to the
    context manager that [tracer.start_as_current_span] returns for the
    function, and calling it with a service name and an operation raises
    [TypeError] before the body runs.  The state is untouched; whatever
    the hash, the call neither raises HTTP 503 nor returns a result. *)
Theorem call_external_service_raises_type_error
    hash now with_span service_name operation st :
  call with_span (call_external_service hash now)
       [VStr service_name; VStr operation] st
  = (Raise TypeError, st)
  /\ (forall detail st',
        call with_span (call_external_service hash now)
             [VStr service_name; VStr operation] st
        <> (Raise (HTTPException 503 detail), st'))
  /\ (forall result st',
        call with_span (call_external_service hash now)
             [VStr service_name; VStr operation] st
        <> (Ret result, st')).
Proof.
  assert (Hcall : call with_span (call_external_service hash now)
                    [VStr service_name; VStr operation] st
                  = (Raise TypeError, st)).
  { unfold call_external_service, start_as_current_span. reflexivity. }
  split; [exact Hcall|].
  split; intros x st'; rewrite Hcall; intros Heq; discriminate Heq.
Qed.

Example call_external_service_user_permissions hash now with_span st :
  call with_span (call_external_service hash now)
       [VStr "user-permissions"; VStr "get_permissions"] st
  = (Raise TypeError, st).
Proof. reflexivity. Qed.

(** * Further properties of the two files *)

(** ** The service processors and the processor chains *)

Import Structlog Tracer Records.

Lemma add_service_info_run logger method_name d st :
  add_service_info logger method_name d st =
  match heap st !! d with
  | Some fields =>
      (Ret d, with_heap (<[d := <["service_name" := VStr "fastapi-demo"]> fields]>
                           (heap st)) st)
  | None => (Raise TypeError, st)
  end.
Proof.
  unfold add_service_info, mbind, M_bind, dict_setitem.
  by destruct (heap st !! d).
Qed.

Lemma add_service_context_run logger method_name d st :
  add_service_context logger method_name d st =
  match heap st !! d with
  | Some fields => (Ret d, with_heap (<[d := service_fields fields]> (heap st)) st)
  | None => (Raise AttributeError, st)
  end.
Proof.
  unfold add_service_context, dict_update, mbind, M_bind.
  destruct (heap st !! d) as [fields|] eqn:Hd; [|reflexivity].
  unfold dict_update_items, mbind, M_bind, dict_setitem. rewrite Hd.
  cbn. rewrite lookup_insert_eq. cbn. rewrite lookup_insert_eq. cbn.
  unfold with_heap, service_fields. cbn. by rewrite !insert_insert_eq.
Qed.

Lemma service_fields_lookup (fields : gmap string value) (k : string) :
  service_fields fields !! k =
  if decide (k = "environment"%string) then Some (VStr "development")
  else if decide (k = "service_version"%string) then Some (VStr "1.0.0")
  else if decide (k = "service_name"%string) then Some (VStr "multi-app-demo")
  else fields !! k.
Proof.
  unfold service_fields. rewrite !lookup_insert.
  repeat case_decide; congruence.
Qed.

Lemma trace_fields_lookup ctx (fields : gmap string value) (k : string) :
  trace_fields ctx fields !! k =
  if decide (k = "span_id"%string) then Some (VStr (format_x 16 (span_id ctx)))
  else if decide (k = "trace_id"%string) then Some (VStr (format_x 32 (trace_id ctx)))
  else fields !! k.
Proof.
  unfold trace_fields. rewrite !lookup_insert.
  repeat case_decide; congruence.
Qed.

Lemma otel_fields_lookup ctx (fields : gmap string value) (k : string) :
  otel_fields ctx fields !! k =
  if decide (k = "trace_flags"%string) then Some (VInt (trace_flags ctx))
  else trace_fields ctx fields !! k.
Proof.
  unfold otel_fields. rewrite lookup_insert.
  repeat case_decide; congruence.
Qed.

(** The fastapi chain in both orders, in closed form. *)
Lemma fastapi_chain_run logger method_name d st :
  (add_service_info logger method_name d ≫= add_trace_info logger method_name) st =
  match heap st !! d with
  | Some fields =>
      (Ret d, with_heap (<[d := match current_span st with
                                | Some sp =>
                                    if trace_id (span_context sp) =? 0
                                    then <["service_name" := VStr "fastapi-demo"]> fields
                                    else trace_fields (span_context sp)
                                           (<["service_name" := VStr "fastapi-demo"]> fields)
                                | None => <["service_name" := VStr "fastapi-demo"]> fields
                                end]> (heap st)) st)
  | None => (Raise TypeError, st)
  end.
Proof.
  unfold mbind, M_bind. rewrite add_service_info_run.
  destruct (heap st !! d) as [fields|] eqn:Hd; [|reflexivity].
  rewrite add_trace_info_run. cbn [current_span with_heap heap].
  rewrite lookup_insert_eq.
  destruct (current_span st) as [sp|]; [|reflexivity].
  destruct (trace_id (span_context sp) =? 0); [reflexivity|].
  unfold with_heap. cbn. by rewrite insert_insert_eq.
Qed.


Lemma multi_app_chain_run logger method_name d st :
  (add_service_context logger method_name d ≫= add_otel_context logger method_name) st =
  match heap st !! d with
  | Some fields =>
      (Ret d, with_heap (<[d := match current_span st with
                                | Some sp =>
                                    if recording sp && negb (trace_id (span_context sp) =? 0)
                                    then otel_fields (span_context sp) (service_fields fields)
                                    else service_fields fields
                                | None => service_fields fields
                                end]> (heap st)) st)
  | None => (Raise AttributeError, st)
  end.
Proof.
  unfold mbind, M_bind. rewrite add_service_context_run.
  destruct (heap st !! d) as [fields|] eqn:Hd; [|reflexivity].
  rewrite add_otel_context_run. cbn [current_span with_heap heap].
  rewrite lookup_insert_eq.
  destruct (current_span st) as [sp|]; [|reflexivity].
  destruct (recording sp && negb (trace_id (span_context sp) =? 0)); [|reflexivity].
  unfold with_heap. cbn. by rewrite insert_insert_eq.
Qed.


(** X1: on a record, the fastapi chain ([add_service_info], then
    [add_trace_info]) returns the record with [service_name] set to
    "fastapi-demo" whatever the caller had put there, with the
    identifiers of a current span that has a trace, with [trace_id] and
    [span_id] as the caller left them otherwise, and with every other
    entry and every other object untouched. *)
Theorem fastapi_chain_result logger method_name d fields st :
  heap st !! d = Some fields ->
  exists st' fields',
    (add_service_info logger method_name d ≫= add_trace_info logger method_name) st
    = (Ret d, st')
    /\ heap st' !! d = Some fields'
    /\ fields' !! "service_name" = Some (VStr "fastapi-demo")
    /\ (forall k : string,
          k <> "service_name"%string -> k <> "trace_id"%string ->
          k <> "span_id"%string -> fields' !! k = fields !! k)
    /\ (if has_trace (current_span st)
        then exists sp, current_span st = Some sp
             /\ fields' !! "trace_id"
                = Some (VStr (format_x 32 (trace_id (span_context sp))))
             /\ fields' !! "span_id"
                = Some (VStr (format_x 16 (span_id (span_context sp))))
        else fields' !! "trace_id" = fields !! "trace_id"
             /\ fields' !! "span_id" = fields !! "span_id")
    /\ (forall d' : loc, d' <> d -> heap st' !! d' = heap st !! d').
Proof.
  intros Hd. rewrite fastapi_chain_run, Hd.
  eexists _, _. split; [reflexivity|].
  split; [apply lookup_insert_eq|].
  assert (Hframe : forall d' : loc, d' <> d ->
            (<[d := match current_span st with
                    | Some sp =>
                        if trace_id (span_context sp) =? 0
                        then <["service_name" := VStr "fastapi-demo"]> fields
                        else trace_fields (span_context sp)
                               (<["service_name" := VStr "fastapi-demo"]> fields)
                    | None => <["service_name" := VStr "fastapi-demo"]> fields
                    end]> (heap st)) !! d' = heap st !! d').
  { intros d' Hd'. by rewrite lookup_insert_ne. }
  assert (Hbase : forall k : string,
            k <> "service_name"%string ->
            (<["service_name" := VStr "fastapi-demo"]> fields : gmap string value) !! k
            = fields !! k).
  { intros k Hk. by rewrite lookup_insert_ne. }
  unfold has_trace.
  destruct (current_span st) as [sp|];
    [destruct (trace_id (span_context sp) =? 0) eqn:Hz; cbn [negb]|].
  - split; [apply lookup_insert_eq|]. repeat split; auto.
  - split; [by rewrite trace_fields_other, lookup_insert_eq|].
    split; [intros k H1 H2 H3; rewrite trace_fields_other by done; auto|].
    split; [|done].
    exists sp. by rewrite trace_fields_trace_id, trace_fields_span_id.
  - split; [apply lookup_insert_eq|]. repeat split; auto.
Qed.

Lemma fastapi_chain_result_witness :
  exists st' fields',
    (add_service_info VNone VNone 0%nat ≫= add_trace_info VNone VNone)
      (Sample.state Sample.record_with_trace_id (Some (Sample.span false)))
    = (Ret 0%nat, st')
    /\ heap st' !! 0%nat = Some fields'
    /\ fields' !! "service_name" = Some (VStr "fastapi-demo")
    /\ (forall k : string,
          k <> "service_name"%string -> k <> "trace_id"%string ->
          k <> "span_id"%string -> fields' !! k = Sample.record_with_trace_id !! k)
    /\ (exists sp, Some (Sample.span false) = Some sp
             /\ fields' !! "trace_id"
                = Some (VStr (format_x 32 (trace_id (span_context sp))))
             /\ fields' !! "span_id"
                = Some (VStr (format_x 16 (span_id (span_context sp)))))
    /\ (forall d' : loc, d' <> 0%nat ->
          heap st' !! d'
          = heap (Sample.state Sample.record_with_trace_id
                    (Some (Sample.span false))) !! d').
Proof.
  apply (fastapi_chain_result VNone VNone 0%nat Sample.record_with_trace_id
           (Sample.state Sample.record_with_trace_id (Some (Sample.span false)))).
  reflexivity.
Defined.

(** X2: on a record, the multi-app chain ([add_service_context], then
    [add_otel_context]) returns the record with [service_name],
    [service_version] and [environment] set to the constants of the file
    whatever the caller had put there, with the identifiers and flags of
    a current span that is recording and has a trace, with those three
    entries as the caller left them otherwise, and with every other entry
    and every other object untouched. *)
Theorem multi_app_chain_result logger method_name d fields st :
  heap st !! d = Some fields ->
  exists st' fields',
    (add_service_context logger method_name d ≫= add_otel_context logger method_name) st
    = (Ret d, st')
    /\ heap st' !! d = Some fields'
    /\ fields' !! "service_name" = Some (VStr "multi-app-demo")
    /\ fields' !! "service_version" = Some (VStr "1.0.0")
    /\ fields' !! "environment" = Some (VStr "development")
    /\ (forall k : string,
          k <> "service_name"%string -> k <> "service_version"%string ->
          k <> "environment"%string -> k <> "trace_id"%string ->
          k <> "span_id"%string -> k <> "trace_flags"%string ->
          fields' !! k = fields !! k)
    /\ (if recording_with_trace (current_span st)
        then exists sp, current_span st = Some sp
             /\ fields' !! "trace_id"
                = Some (VStr (format_x 32 (trace_id (span_context sp))))
             /\ fields' !! "span_id"
                = Some (VStr (format_x 16 (span_id (span_context sp))))
             /\ fields' !! "trace_flags"
                = Some (VInt (trace_flags (span_context sp)))
        else fields' !! "trace_id" = fields !! "trace_id"
             /\ fields' !! "span_id" = fields !! "span_id"
             /\ fields' !! "trace_flags" = fields !! "trace_flags")
    /\ (forall d' : loc, d' <> d -> heap st' !! d' = heap st !! d').
Proof.
  intros Hd. rewrite multi_app_chain_run, Hd.
  eexists _, _. split; [reflexivity|].
  split; [apply lookup_insert_eq|].
  assert (Hframe : forall (x : gmap string value) (d' : loc), d' <> d ->
            (<[d := x]> (heap st)) !! d' = heap st !! d').
  { intros x d' Hd'. by rewrite lookup_insert_ne. }
  assert (Hother : forall k : string,
            k <> "service_name"%string -> k <> "service_version"%string ->
            k <> "environment"%string -> service_fields fields !! k = fields !! k).
  { intros k H1 H2 H3. rewrite service_fields_lookup. by repeat case_decide. }
  unfold recording_with_trace.
  destruct (current_span st) as [sp|];
    [destruct (recording sp && negb (trace_id (span_context sp) =? 0))|].
  - rewrite !otel_fields_other by done.
    rewrite otel_fields_trace_id, otel_fields_span_id, otel_fields_trace_flags.
    repeat split; eauto;
      try (rewrite service_fields_lookup; repeat case_decide; congruence).
    + intros k H1 H2 H3 H4 H5 H6. rewrite otel_fields_other by done. auto.
    + intros d' Hd'. by apply Hframe.
  - repeat split; auto; try (intros d' Hd'; by apply Hframe);
      rewrite service_fields_lookup; repeat case_decide; congruence.
  - repeat split; auto; try (intros d' Hd'; by apply Hframe);
      rewrite service_fields_lookup; repeat case_decide; congruence.
Qed.

Lemma multi_app_chain_result_witness :
  exists st' fields',
    (add_service_context VNone VNone 0%nat ≫= add_otel_context VNone VNone)
      (Sample.state Sample.record_with_trace_id (Some (Sample.span false)))
    = (Ret 0%nat, st')
    /\ heap st' !! 0%nat = Some fields'
    /\ fields' !! "service_name" = Some (VStr "multi-app-demo")
    /\ fields' !! "service_version" = Some (VStr "1.0.0")
    /\ fields' !! "environment" = Some (VStr "development")
    /\ (forall k : string,
          k <> "service_name"%string -> k <> "service_version"%string ->
          k <> "environment"%string -> k <> "trace_id"%string ->
          k <> "span_id"%string -> k <> "trace_flags"%string ->
          fields' !! k = Sample.record_with_trace_id !! k)
    /\ (fields' !! "trace_id" = Sample.record_with_trace_id !! "trace_id"
        /\ fields' !! "span_id" = Sample.record_with_trace_id !! "span_id"
        /\ fields' !! "trace_flags" = Sample.record_with_trace_id !! "trace_flags")
    /\ (forall d' : loc, d' <> 0%nat ->
          heap st' !! d'
          = heap (Sample.state Sample.record_with_trace_id
                    (Some (Sample.span false))) !! d').
Proof.
  apply (multi_app_chain_result VNone VNone 0%nat Sample.record_with_trace_id
           (Sample.state Sample.record_with_trace_id (Some (Sample.span false)))).
  reflexivity.
Defined.



(** On a reference that is no dictionary the two orders of the multi-app
    chain fail differently under a recording span: the enricher's item
    assignment is a [TypeError], the [update] of the service processor
    an [AttributeError]. *)
Example multi_app_order_on_no_dictionary :
  (add_otel_context VNone VNone 7%nat ≫= add_service_context VNone VNone)
    (Sample.state Sample.record (Some (Sample.span true)))
  = (Raise TypeError, Sample.state Sample.record (Some (Sample.span true)))
  /\ (add_service_context VNone VNone 7%nat ≫= add_otel_context VNone VNone)
       (Sample.state Sample.record (Some (Sample.span true)))
     = (Raise AttributeError, Sample.state Sample.record (Some (Sample.span true))).
Proof. split; reflexivity. Qed.

(** ** Log calls *)

Lemma fresh_lookup_ne (h : gmap loc (gmap string value)) (d : loc) :
  is_Some (h !! d) -> fresh (dom h) <> d.
Proof.
  intros Hd Heq. apply elem_of_dom in Hd. rewrite <- Heq in Hd.
  by apply is_fresh in Hd.
Qed.

Lemma insert_fresh_frame (h : gmap loc (gmap string value)) x d fields :
  h !! d = Some fields -> <[fresh (dom h) := x]> h !! d = Some fields.
Proof.
  intros Hd. rewrite lookup_insert_ne; [done|]. apply fresh_lookup_ne. by eexists.
Qed.

(** [log_call] of the multi-app file in closed form. *)
Lemma log_call_emits method event kw h cur em sl :
  log_call method event kw (mkState h cur em sl)
  = (Ret (),
     mkState (<[fresh (dom h) := multi_app_record cur event kw]> h) cur
             (em ++ [(method, multi_app_record cur event kw)]) sl).
Proof.
  unfold log_call, mbind, M_bind, new_dict, with_heap.
  cbn [heap current_span emitted slept_ms].
  rewrite add_service_context_run. cbn [heap]. rewrite lookup_insert_eq.
  unfold with_heap. cbn [heap current_span emitted slept_ms].
  rewrite insert_insert_eq.
  rewrite add_otel_context_run. cbn [heap current_span]. rewrite lookup_insert_eq.
  unfold multi_app_record, event_fields, emit, with_heap.
  destruct cur as [sp|];
    [destruct (recording sp && negb (trace_id (span_context sp) =? 0))|];
    cbn [heap current_span emitted slept_ms];
    rewrite ?insert_insert_eq, lookup_insert_eq; reflexivity.
Qed.

Lemma multi_app_logger_run m event kw h cur em sl :
  binds_twice kw = false ->
  MultiAppHandlers.logger m event kw (mkState h cur em sl)
  = (Ret (),
     if level_of m <? INFO
     then mkState (<[fresh (dom h) := event_fields event kw]> h) cur em sl
     else mkState (<[fresh (dom h) := multi_app_record cur event kw]> h) cur
                  (em ++ [(method_name m, multi_app_record cur event kw)]) sl).
Proof.
  intros Hkw.
  pose proof (log_call_emits (method_name m) event kw h cur em sl) as Hlog.
  unfold MultiAppHandlers.logger, bound_logger_call. rewrite Hkw.
  unfold log_call in Hlog.
  unfold mbind, M_bind, new_dict, with_heap in *.
  cbn [heap current_span emitted slept_ms run_processors] in *.
  destruct (level_of m <? INFO); [reflexivity|].
  unfold mbind, M_bind, mret, M_ret.
  destruct (add_service_context VNone (VStr (method_name m)) (fresh (dom h))
              (mkState (<[fresh (dom h) := <["event" := VStr event]> (list_to_map kw)]> h)
                       cur em sl)) as [[d1|e1] st1]; [|done].
  destruct (add_otel_context VNone (VStr (method_name m)) d1 st1) as [[d2|e2] st2];
    done.
Qed.

Lemma fastapi_logger_run m event kw h cur em sl :
  binds_twice kw = false ->
  FastapiHandlers.logger m event kw (mkState h cur em sl)
  = (Ret (),
     if level_of m <? INFO
     then mkState (<[fresh (dom h) := event_fields event kw]> h) cur em sl
     else mkState (<[fresh (dom h) := fastapi_record cur event kw]> h) cur
                  (em ++ [(method_name m, fastapi_record cur event kw)]) sl).
Proof.
  intros Hkw.
  unfold FastapiHandlers.logger, bound_logger_call. rewrite Hkw.
  unfold mbind, M_bind, new_dict, with_heap.
  cbn [heap current_span emitted slept_ms run_processors].
  destruct (level_of m <? INFO); [reflexivity|].
  unfold mbind, M_bind, mret, M_ret.
  rewrite add_service_info_run. cbn [heap]. rewrite lookup_insert_eq.
  unfold with_heap. cbn [heap current_span emitted slept_ms].
  rewrite insert_insert_eq.
  rewrite add_trace_info_run. cbn [heap current_span]. rewrite lookup_insert_eq.
  unfold fastapi_record, event_fields, emit, with_heap.
  destruct cur as [sp|];
    [destruct (trace_id (span_context sp) =? 0)|];
    cbn [heap current_span emitted slept_ms];
    rewrite ?insert_insert_eq, lookup_insert_eq; reflexivity.
Qed.

(** A call with a keyword argument named [event] fails as a call. *)
Lemma bound_logger_call_event_keyword processors m event kw st :
  has_key "event" kw = true ->
  bound_logger_call processors m event kw st = (Raise TypeError, st).
Proof.
  intros Hkw. unfold bound_logger_call, binds_twice, bound_parameters.
  cbn [existsb]. by rewrite Hkw, orb_true_r.
Qed.

Lemma plain_keywords_binds kw : plain_keywords kw = true -> binds_twice kw = false.
Proof.
  unfold plain_keywords. intros H.
  apply andb_true_iff in H as [H _]. apply andb_true_iff in H as [H _].
  by apply negb_true_iff.
Qed.

(** At the levels that pass the filter, and without an [event] keyword,
    the logger of the multi-app handlers is [log_call]. *)
Lemma multi_app_logger_log_call m event kw st :
  binds_twice kw = false -> INFO <= level_of m ->
  MultiAppHandlers.logger m event kw st = log_call (method_name m) event kw st.
Proof.
  intros Hkw Hlvl. destruct st as [h cur em sl].
  rewrite multi_app_logger_run, log_call_emits by done.
  destruct (level_of m <? INFO) eqn:Hlt; [apply Z.ltb_lt in Hlt; lia|done].
Qed.

Lemma level_passes m : INFO <= level_of m -> (level_of m <? INFO) = false.
Proof. intros H. apply Z.ltb_ge. lia. Qed.

(** X4: in both files a log call at level INFO or above with plain
    keyword arguments (none named like a bound parameter of the call,
    none read by a library processor, scalar values) never raises and
    hands exactly one record to the sinks under the name of its method;
    it leaves the current span, the time slept and every dictionary that
    existed before the call as they were. *)
Theorem log_call_frame m event kw st :
  plain_keywords kw = true ->
  INFO <= level_of m ->
  (exists st' record,
      FastapiHandlers.logger m event kw st = (Ret (), st')
      /\ emitted st' = emitted st ++ [(method_name m, record)]
      /\ current_span st' = current_span st
      /\ slept_ms st' = slept_ms st
      /\ forall d fields, heap st !! d = Some fields -> heap st' !! d = Some fields)
  /\
  (exists st' record,
      MultiAppHandlers.logger m event kw st = (Ret (), st')
      /\ emitted st' = emitted st ++ [(method_name m, record)]
      /\ current_span st' = current_span st
      /\ slept_ms st' = slept_ms st
      /\ forall d fields, heap st !! d = Some fields -> heap st' !! d = Some fields).
Proof.
  intros Hkw Hlvl. apply plain_keywords_binds in Hkw. destruct st as [h cur em sl].
  rewrite fastapi_logger_run, multi_app_logger_run, level_passes by done.
  split; eexists _, _; (split; [reflexivity|]); cbn;
    repeat split; intros d fields Hd; by apply insert_fresh_frame.
Qed.

Lemma log_call_frame_witness :
  (exists st' record,
      FastapiHandlers.logger LWarning "msg" [("endpoint"%string, VStr "/")]
        (Sample.state Sample.record (Some (Sample.span true))) = (Ret (), st')
      /\ emitted st' = [] ++ [("warning"%string, record)]
      /\ current_span st' = Some (Sample.span true)
      /\ slept_ms st' = 0
      /\ forall d fields,
           heap (Sample.state Sample.record (Some (Sample.span true))) !! d = Some fields ->
           heap st' !! d = Some fields)
  /\
  (exists st' record,
      MultiAppHandlers.logger LWarning "msg" [("endpoint"%string, VStr "/")]
        (Sample.state Sample.record (Some (Sample.span true))) = (Ret (), st')
      /\ emitted st' = [] ++ [("warning"%string, record)]
      /\ current_span st' = Some (Sample.span true)
      /\ slept_ms st' = 0
      /\ forall d fields,
           heap (Sample.state Sample.record (Some (Sample.span true))) !! d = Some fields ->
           heap st' !! d = Some fields).
Proof.
  apply (log_call_frame LWarning "msg" [("endpoint"%string, VStr "/")]
           (Sample.state Sample.record (Some (Sample.span true)))).
  - reflexivity.
  - vm_compute. discriminate.
Defined.

(** X5: with the standard logger at INFO, a [debug] call of either file
    with plain keyword arguments emits no record at all: it returns, and
    the records handed to the sinks, the current span, the time slept and
    the existing dictionaries are as before. *)
Theorem debug_call_dropped event kw st :
  plain_keywords kw = true ->
  (exists st',
      FastapiHandlers.logger LDebug event kw st = (Ret (), st')
      /\ emitted st' = emitted st
      /\ current_span st' = current_span st
      /\ slept_ms st' = slept_ms st
      /\ forall d fields, heap st !! d = Some fields -> heap st' !! d = Some fields)
  /\
  (exists st',
      MultiAppHandlers.logger LDebug event kw st = (Ret (), st')
      /\ emitted st' = emitted st
      /\ current_span st' = current_span st
      /\ slept_ms st' = slept_ms st
      /\ forall d fields, heap st !! d = Some fields -> heap st' !! d = Some fields).
Proof.
  intros Hkw. apply plain_keywords_binds in Hkw. destruct st as [h cur em sl].
  rewrite fastapi_logger_run, multi_app_logger_run by done.
  change (level_of LDebug <? INFO) with true.
  split; eexists; (split; [reflexivity|]); cbn;
    repeat split; intros d fields Hd; by apply insert_fresh_frame.
Qed.

Lemma debug_call_dropped_witness :
  (exists st',
      FastapiHandlers.logger LDebug "调试信息" [("level"%string, VStr "debug")]
        (Sample.state Sample.record (Some (Sample.span true))) = (Ret (), st')
      /\ emitted st' = []
      /\ current_span st' = Some (Sample.span true)
      /\ slept_ms st' = 0
      /\ forall d fields,
           heap (Sample.state Sample.record (Some (Sample.span true))) !! d = Some fields ->
           heap st' !! d = Some fields)
  /\
  (exists st',
      MultiAppHandlers.logger LDebug "调试信息" [("level"%string, VStr "debug")]
        (Sample.state Sample.record (Some (Sample.span true))) = (Ret (), st')
      /\ emitted st' = []
      /\ current_span st' = Some (Sample.span true)
      /\ slept_ms st' = 0
      /\ forall d fields,
           heap (Sample.state Sample.record (Some (Sample.span true))) !! d = Some fields ->
           heap st' !! d = Some fields).
Proof.
  apply (debug_call_dropped "调试信息" [("level"%string, VStr "debug")]
           (Sample.state Sample.record (Some (Sample.span true)))).
  reflexivity.
Defined.

Lemma event_fields_event event kw :
  event_fields event kw !! "event" = Some (VStr event).
Proof. unfold event_fields. apply lookup_insert_eq. Qed.

Lemma event_fields_other event kw (k : string) :
  k <> "event"%string ->
  event_fields event kw !! k = (list_to_map kw : gmap string value) !! k.
Proof. intros Hk. unfold event_fields. by rewrite lookup_insert_ne. Qed.

(** X6: the record a multi-app log call with plain keyword arguments
    hands to the sinks holds the message under [event], the three
    service constants, every keyword argument under a key no processor
    writes, and for the three trace keys the values of the current span
    when it is recording with a trace, the caller's own keyword
    arguments (if any) otherwise. *)
Theorem multi_app_log_record m event kw st :
  plain_keywords kw = true ->
  INFO <= level_of m ->
  exists st' record,
    MultiAppHandlers.logger m event kw st = (Ret (), st')
    /\ emitted st' = emitted st ++ [(method_name m, record)]
    /\ record !! "event" = Some (VStr event)
    /\ record !! "service_name" = Some (VStr "multi-app-demo")
    /\ record !! "service_version" = Some (VStr "1.0.0")
    /\ record !! "environment" = Some (VStr "development")
    /\ (forall k : string,
          k <> "event"%string -> k <> "service_name"%string ->
          k <> "service_version"%string -> k <> "environment"%string ->
          k <> "trace_id"%string -> k <> "span_id"%string ->
          k <> "trace_flags"%string -> k ∉ library_keys ->
          record !! k = (list_to_map kw : gmap string value) !! k)
    /\ (if recording_with_trace (current_span st)
        then exists sp, current_span st = Some sp
             /\ record !! "trace_id"
                = Some (VStr (format_x 32 (trace_id (span_context sp))))
             /\ record !! "span_id"
                = Some (VStr (format_x 16 (span_id (span_context sp))))
             /\ record !! "trace_flags"
                = Some (VInt (trace_flags (span_context sp)))
        else record !! "trace_id" = (list_to_map kw : gmap string value) !! "trace_id"
             /\ record !! "span_id" = (list_to_map kw : gmap string value) !! "span_id"
             /\ record !! "trace_flags"
                = (list_to_map kw : gmap string value) !! "trace_flags").
Proof.
  intros Hkw Hlvl. apply plain_keywords_binds in Hkw. destruct st as [h cur em sl].
  rewrite multi_app_logger_run, level_passes by done.
  eexists _, _. split; [reflexivity|]. split; [reflexivity|].
  cbn [current_span].
  assert (Hbase : forall k : string,
            service_fields (event_fields event kw) !! k =
            if decide (k = "environment"%string) then Some (VStr "development")
            else if decide (k = "service_version"%string) then Some (VStr "1.0.0")
            else if decide (k = "service_name"%string) then Some (VStr "multi-app-demo")
            else if decide (k = "event"%string) then Some (VStr event)
            else (list_to_map kw : gmap string value) !! k).
  { intros k. rewrite service_fields_lookup. unfold event_fields.
    rewrite lookup_insert. repeat case_decide; congruence. }
  unfold multi_app_record, recording_with_trace.
  destruct cur as [sp|];
    [destruct (recording sp && negb (trace_id (span_context sp) =? 0))|].
  - rewrite !otel_fields_other by done.
    rewrite otel_fields_trace_id, otel_fields_span_id, otel_fields_trace_flags.
    rewrite !Hbase.
    repeat split; eauto.
    intros k H1 H2 H3 H4 H5 H6 H7 _.
    rewrite otel_fields_other, Hbase by done. by repeat case_decide.
  - rewrite !Hbase. repeat split; auto.
    intros k H1 H2 H3 H4 H5 H6 H7 _. rewrite Hbase. by repeat case_decide.
  - rewrite !Hbase. repeat split; auto.
    intros k H1 H2 H3 H4 H5 H6 H7 _. rewrite Hbase. by repeat case_decide.
Qed.

Lemma multi_app_log_record_witness :
  exists st' record,
    MultiAppHandlers.logger LInfo "用户操作处理完成"
      [("user_id"%string, VStr "u1"); ("trace_id"%string, VStr "abc")]
      (Sample.state Sample.record (Some (Sample.span true))) = (Ret (), st')
    /\ emitted st' = [] ++ [("info"%string, record)]
    /\ record !! "event" = Some (VStr "用户操作处理完成")
    /\ record !! "service_name" = Some (VStr "multi-app-demo")
    /\ record !! "service_version" = Some (VStr "1.0.0")
    /\ record !! "environment" = Some (VStr "development")
    /\ (forall k : string,
          k <> "event"%string -> k <> "service_name"%string ->
          k <> "service_version"%string -> k <> "environment"%string ->
          k <> "trace_id"%string -> k <> "span_id"%string ->
          k <> "trace_flags"%string -> k ∉ library_keys ->
          record !! k
          = (list_to_map [("user_id"%string, VStr "u1"); ("trace_id"%string, VStr "abc")]
              : gmap string value) !! k)
    /\ (exists sp, Some (Sample.span true) = Some sp
             /\ record !! "trace_id"
                = Some (VStr (format_x 32 (trace_id (span_context sp))))
             /\ record !! "span_id"
                = Some (VStr (format_x 16 (span_id (span_context sp))))
             /\ record !! "trace_flags"
                = Some (VInt (trace_flags (span_context sp)))).
Proof.
  apply (multi_app_log_record LInfo "用户操作处理完成"
           [("user_id"%string, VStr "u1"); ("trace_id"%string, VStr "abc")]
           (Sample.state Sample.record (Some (Sample.span true)))).
  - reflexivity.
  - vm_compute. discriminate.
Defined.

(** X7: the record a fastapi log call with plain keyword arguments
    hands to the sinks holds the message under [event], [service_name]
    "fastapi-demo", every keyword argument under a key no processor
    writes, and for [trace_id] and [span_id] the values of the current
    span when it has a trace (recording or not), the caller's own
    keyword arguments (if any) otherwise. *)
Theorem fastapi_log_record m event kw st :
  plain_keywords kw = true ->
  INFO <= level_of m ->
  exists st' record,
    FastapiHandlers.logger m event kw st = (Ret (), st')
    /\ emitted st' = emitted st ++ [(method_name m, record)]
    /\ record !! "event" = Some (VStr event)
    /\ record !! "service_name" = Some (VStr "fastapi-demo")
    /\ (forall k : string,
          k <> "event"%string -> k <> "service_name"%string ->
          k <> "trace_id"%string -> k <> "span_id"%string ->
          k ∉ library_keys ->
          record !! k = (list_to_map kw : gmap string value) !! k)
    /\ (if has_trace (current_span st)
        then exists sp, current_span st = Some sp
             /\ record !! "trace_id"
                = Some (VStr (format_x 32 (trace_id (span_context sp))))
             /\ record !! "span_id"
                = Some (VStr (format_x 16 (span_id (span_context sp))))
        else record !! "trace_id" = (list_to_map kw : gmap string value) !! "trace_id"
             /\ record !! "span_id" = (list_to_map kw : gmap string value) !! "span_id").
Proof.
  intros Hkw Hlvl. apply plain_keywords_binds in Hkw. destruct st as [h cur em sl].
  rewrite fastapi_logger_run, level_passes by done.
  eexists _, _. split; [reflexivity|]. split; [reflexivity|].
  cbn [current_span].
  assert (Hbase : forall k : string,
            (<["service_name" := VStr "fastapi-demo"]> (event_fields event kw)
               : gmap string value) !! k =
            if decide (k = "service_name"%string) then Some (VStr "fastapi-demo")
            else if decide (k = "event"%string) then Some (VStr event)
            else (list_to_map kw : gmap string value) !! k).
  { intros k. unfold event_fields.
    rewrite !lookup_insert. repeat case_decide; congruence. }
  unfold fastapi_record, has_trace.
  destruct cur as [sp|];
    [destruct (trace_id (span_context sp) =? 0); cbn [negb]|].
  - rewrite !Hbase. repeat split; auto.
    intros k H1 H2 H3 H4 _. rewrite Hbase. by repeat case_decide.
  - rewrite !trace_fields_other by done.
    rewrite trace_fields_trace_id, trace_fields_span_id, !Hbase.
    repeat split; eauto.
    intros k H1 H2 H3 H4 _.
    rewrite trace_fields_other, Hbase by done. by repeat case_decide.
  - rewrite !Hbase. repeat split; auto.
    intros k H1 H2 H3 H4 _. rewrite Hbase. by repeat case_decide.
Qed.

Lemma fastapi_log_record_witness :
  exists st' record,
    FastapiHandlers.logger LInfo "健康检查"
      [("endpoint"%string, VStr "/health"); ("method"%string, VStr "GET")]
      (Sample.state Sample.record None) = (Ret (), st')
    /\ emitted st' = [] ++ [("info"%string, record)]
    /\ record !! "event" = Some (VStr "健康检查")
    /\ record !! "service_name" = Some (VStr "fastapi-demo")
    /\ (forall k : string,
          k <> "event"%string -> k <> "service_name"%string ->
          k <> "trace_id"%string -> k <> "span_id"%string ->
          k ∉ library_keys ->
          record !! k
          = (list_to_map [("endpoint"%string, VStr "/health");
                          ("method"%string, VStr "GET")]
              : gmap string value) !! k)
    /\ (record !! "trace_id"
        = (list_to_map [("endpoint"%string, VStr "/health");
                        ("method"%string, VStr "GET")]
            : gmap string value) !! "trace_id"
        /\ record !! "span_id"
           = (list_to_map [("endpoint"%string, VStr "/health");
                           ("method"%string, VStr "GET")]
               : gmap string value) !! "span_id").
Proof.
  apply (fastapi_log_record LInfo "健康检查"
           [("endpoint"%string, VStr "/health"); ("method"%string, VStr "GET")]
           (Sample.state Sample.record None)).
  - reflexivity.
  - vm_compute. discriminate.
Defined.

(** X8: while a recording span with a 128-bit non-zero trace identifier
    and a 64-bit span identifier is current, the record that a log call
    of either file hands to the sinks carries that span's identifiers as
    32 and 16 lowercase hexadecimal characters, for every list of plain
    keyword arguments, a caller-supplied [trace_id] or [span_id]
    included. *)
Theorem emitted_record_renders_span_ids m event kw st sp :
  plain_keywords kw = true ->
  INFO <= level_of m ->
  current_span st = Some sp ->
  recording sp = true ->
  0 < trace_id (span_context sp) < 2 ^ 128 ->
  0 <= span_id (span_context sp) < 2 ^ 64 ->
  (exists st' record,
      FastapiHandlers.logger m event kw st = (Ret (), st')
      /\ emitted st' = emitted st ++ [(method_name m, record)]
      /\ ids_rendered sp record)
  /\
  (exists st' record,
      MultiAppHandlers.logger m event kw st = (Ret (), st')
      /\ emitted st' = emitted st ++ [(method_name m, record)]
      /\ ids_rendered sp record).
Proof.
  intros Hkw Hlvl Hsp Hrec Htr Hsr. apply plain_keywords_binds in Hkw. destruct st as [h cur em sl].
  cbn in Hsp. subst cur.
  rewrite fastapi_logger_run, multi_app_logger_run, level_passes by done.
  assert (Hz : (trace_id (span_context sp) =? 0) = false) by (apply Z.eqb_neq; lia).
  unfold fastapi_record, multi_app_record. rewrite Hrec, Hz. cbn [andb negb].
  split; eexists _, _; (split; [reflexivity|]); (split; [reflexivity|]);
    apply ids_rendered_intro;
    auto using trace_fields_trace_id, trace_fields_span_id,
      otel_fields_trace_id, otel_fields_span_id.
Qed.

Lemma emitted_record_renders_span_ids_witness :
  (exists st' record,
      FastapiHandlers.logger LInfo "msg" [("trace_id"%string, VStr "abc")]
        (Sample.state Sample.record (Some (Sample.span true))) = (Ret (), st')
      /\ emitted st' = [] ++ [("info"%string, record)]
      /\ ids_rendered (Sample.span true) record)
  /\
  (exists st' record,
      MultiAppHandlers.logger LInfo "msg" [("trace_id"%string, VStr "abc")]
        (Sample.state Sample.record (Some (Sample.span true))) = (Ret (), st')
      /\ emitted st' = [] ++ [("info"%string, record)]
      /\ ids_rendered (Sample.span true) record).
Proof.
  apply (emitted_record_renders_span_ids LInfo "msg" [("trace_id"%string, VStr "abc")]
           (Sample.state Sample.record (Some (Sample.span true)))
           (Sample.span true)).
  - reflexivity.
  - vm_compute. discriminate.
  - reflexivity.
  - reflexivity.
  - vm_compute. split; reflexivity.
  - vm_compute. split; [discriminate | reflexivity].
Defined.

(** ** Running the handlers step by step *)

Import Spans.

Lemma set_attribute_run k v h sp em sl :
  set_attribute k v (mkState h (Some sp) em sl)
  = (Ret (), mkState h (Some (with_attribute k v sp)) em sl).
Proof.
  unfold set_attribute, update_span, with_attribute, with_current_span. cbn.
  by destruct (recording sp).
Qed.

Lemma record_exception_run msg h sp em sl :
  record_exception msg (mkState h (Some sp) em sl)
  = (Ret (), mkState h (Some (with_event msg sp)) em sl).
Proof.
  unfold record_exception, update_span, with_event, with_current_span. cbn.
  by destruct (recording sp).
Qed.

Lemma set_status_run c h sp em sl :
  set_status c (mkState h (Some sp) em sl)
  = (Ret (), mkState h (Some (with_status c sp)) em sl).
Proof.
  unfold set_status, update_span, with_status, with_current_span. cbn.
  by destruct (recording sp).
Qed.

Lemma sleep_ms_run ms h cur em sl :
  sleep_ms ms (mkState h cur em sl) = (Ret (), mkState h cur em (sl + ms)).
Proof. reflexivity. Qed.

Lemma new_dict_run fields h cur em sl :
  new_dict fields (mkState h cur em sl)
  = (Ret (fresh (dom h)), mkState (<[fresh (dom h) := fields]> h) cur em sl).
Proof. reflexivity. Qed.

Lemma with_attribute_context k v sp :
  span_context (with_attribute k v sp) = span_context sp.
Proof. unfold with_attribute. by destruct (recording sp) eqn:H. Qed.


Lemma with_event_context msg sp : span_context (with_event msg sp) = span_context sp.
Proof. unfold with_event. by destruct (recording sp) eqn:H. Qed.

Lemma with_event_recording msg sp : recording (with_event msg sp) = recording sp.
Proof. unfold with_event. by destruct (recording sp) eqn:H. Qed.

Lemma with_status_context c sp : span_context (with_status c sp) = span_context sp.
Proof.
  unfold with_status. by destruct (recording sp) eqn:H, (status sp), c.
Qed.

Lemma with_status_recording c sp : recording (with_status c sp) = recording sp.
Proof.
  unfold with_status. by destruct (recording sp) eqn:H, (status sp), c.
Qed.

Lemma fastapi_logger_emits m event kw h cur em sl :
  binds_twice kw = false -> INFO <= level_of m ->
  FastapiHandlers.logger m event kw (mkState h cur em sl)
  = (Ret (),
     mkState (<[fresh (dom h) := fastapi_record cur event kw]> h) cur
             (em ++ [(method_name m, fastapi_record cur event kw)]) sl).
Proof. intros Hkw Hlvl. by rewrite fastapi_logger_run, level_passes. Qed.

Lemma multi_app_logger_emits m event kw h cur em sl :
  binds_twice kw = false -> INFO <= level_of m ->
  MultiAppHandlers.logger m event kw (mkState h cur em sl)
  = (Ret (),
     mkState (<[fresh (dom h) := multi_app_record cur event kw]> h) cur
             (em ++ [(method_name m, multi_app_record cur event kw)]) sl).
Proof. intros Hkw Hlvl. by rewrite multi_app_logger_run, level_passes. Qed.

Lemma multi_app_logger_drops event kw h cur em sl :
  binds_twice kw = false ->
  MultiAppHandlers.logger LDebug event kw (mkState h cur em sl)
  = (Ret (), mkState (<[fresh (dom h) := event_fields event kw]> h) cur em sl).
Proof. intros Hkw. by rewrite multi_app_logger_run. Qed.

Ltac level_side := first [reflexivity | (vm_compute; discriminate)].

(** One statement of a handler at a time, on an explicit state. *)
Ltac run_step :=
  first
    [ rewrite set_attribute_run
    | rewrite record_exception_run
    | rewrite set_status_run
    | rewrite sleep_ms_run
    | rewrite new_dict_run
    | rewrite log_call_emits
    | rewrite fastapi_logger_emits by level_side
    | rewrite multi_app_logger_emits by level_side
    | rewrite multi_app_logger_drops by reflexivity ];
  cbv beta iota.

Ltac run_handler :=
  unfold mbind, M_bind, mret, M_ret, raise; cbv beta iota; repeat run_step.

Lemma multi_app_record_other cur event kw (k : string) :
  k <> "event"%string -> k <> "service_name"%string ->
  k <> "service_version"%string -> k <> "environment"%string ->
  k <> "trace_id"%string -> k <> "span_id"%string -> k <> "trace_flags"%string ->
  multi_app_record cur event kw !! k = (list_to_map kw : gmap string value) !! k.
Proof.
  intros H1 H2 H3 H4 H5 H6 H7.
  assert (Hbase : service_fields (event_fields event kw) !! k
                  = (list_to_map kw : gmap string value) !! k).
  { rewrite service_fields_lookup, <- (event_fields_other event) by done.
    by repeat case_decide. }
  unfold multi_app_record.
  destruct cur as [sp|];
    [destruct (recording sp && negb (trace_id (span_context sp) =? 0))|];
    by rewrite ?otel_fields_other.
Qed.

Lemma fastapi_record_other cur event kw (k : string) :
  k <> "event"%string -> k <> "service_name"%string ->
  k <> "trace_id"%string -> k <> "span_id"%string ->
  fastapi_record cur event kw !! k = (list_to_map kw : gmap string value) !! k.
Proof.
  intros H1 H2 H3 H4.
  assert (Hbase : (<["service_name" := VStr "fastapi-demo"]> (event_fields event kw)
                     : gmap string value) !! k
                  = (list_to_map kw : gmap string value) !! k).
  { by rewrite lookup_insert_ne, event_fields_other. }
  unfold fastapi_record.
  destruct cur as [sp|]; [destruct (trace_id (span_context sp) =? 0)|];
    by rewrite ?trace_fields_other.
Qed.

(** ** The simulated service call and database query *)

(** The heap only grows: allocation takes a reference above every
    dictionary that exists. *)
Lemma fresh_above (h h' : gmap loc (gmap string value)) :
  h ⊆ h' -> h !! fresh (dom h') = None.
Proof.
  intros Hsub. destruct (h !! fresh (dom h')) as [fields|] eqn:Hd; [|done].
  exfalso. apply (is_fresh (dom h')). apply elem_of_dom.
  exists fields. by eapply lookup_weaken.
Qed.

Lemma heap_grows_fresh (h h' : gmap loc (gmap string value)) x :
  h ⊆ h' -> h ⊆ <[fresh (dom h') := x]> h'.
Proof. intros Hsub. apply insert_subseteq_r; [by apply fresh_above|done]. Qed.

Ltac heap_grows := repeat apply heap_grows_fresh; reflexivity.

Lemma heap_frame (h h' : gmap loc (gmap string value)) :
  h ⊆ h' -> forall d fields, h !! d = Some fields -> h' !! d = Some fields.
Proof. intros Hsub d fields Hd. by eapply lookup_weaken. Qed.

(** X9: the body of [call_external_service], run with a current span,
    raises HTTP 503 "service unavailable" exactly when the hash of the
    concatenated names is divisible by 10, having recorded the exception
    on a recording span and set its status to [ERROR] unless it was
    already [OK]; otherwise it returns a reference that denoted no
    dictionary before, behind which lie the service and the completed
    operation.  Either way every dictionary that existed before is as it
    was. *)
Theorem call_external_service_body_result hash now service_name operation st sp :
  current_span st = Some sp ->
  if hash (service_name +:+ operation) mod 10 =? 0 then
    exists st',
      call_external_service_body hash now service_name operation st
      = (Raise (HTTPException 503 (service_name +:+ " service unavailable")), st')
      /\ (forall d fields, heap st !! d = Some fields -> heap st' !! d = Some fields)
      /\ if recording sp then
           exists sp', current_span st' = Some sp'
             /\ span_context sp' = span_context sp
             /\ status sp' = match status sp with OK => OK | _ => ERROR end
             /\ events sp'
                = events sp ++ [service_name +:+ " service temporarily unavailable"]
         else current_span st' = Some sp
  else
    exists st' result,
      call_external_service_body hash now service_name operation st
      = (Ret (VRef result), st')
      /\ heap st !! result = None
      /\ heap st' !! result
         = Some (<["service" := VStr service_name]>
                   (<["result" := VStr (operation +:+ "_completed")]> ∅))
      /\ (forall d fields, heap st !! d = Some fields -> heap st' !! d = Some fields).
Proof.
  intros Hsp. destruct st as [h cur em sl]. cbn in Hsp. subst cur.
  unfold call_external_service_body.
  destruct (hash (service_name +:+ operation) mod 10 =? 0); run_handler.
  - eexists. split; [reflexivity|]. cbn [heap current_span].
    split; [apply heap_frame; heap_grows|].
    destruct sp as [rec ctx attrs evs stt].
    unfold with_status, with_event, with_attribute.
    destruct rec, stt; cbn; eauto.
  - eexists _, _. split; [reflexivity|]. cbn [heap].
    split; [apply fresh_above; heap_grows|].
    split; [apply lookup_insert_eq|].
    apply heap_frame. heap_grows.
Qed.

Lemma call_external_service_body_result_witness :
  exists st' result,
    call_external_service_body (fun s => Z.of_nat (String.length s)) "2026-01-01T00:00:00"
      "user-permissions" "get_permissions"
      (Sample.state Sample.record (Some (Sample.span true)))
    = (Ret (VRef result), st')
    /\ heap (Sample.state Sample.record (Some (Sample.span true))) !! result = None
    /\ heap st' !! result
       = Some (<["service" := VStr "user-permissions"]>
                 (<["result" := VStr ("get_permissions" +:+ "_completed")]> ∅))
    /\ (forall d fields,
          heap (Sample.state Sample.record (Some (Sample.span true))) !! d = Some fields ->
          heap st' !! d = Some fields).
Proof.
  apply (call_external_service_body_result (fun s => Z.of_nat (String.length s))
           "2026-01-01T00:00:00" "user-permissions" "get_permissions"
           (Sample.state Sample.record (Some (Sample.span true)))
           (Sample.span true)).
  reflexivity.
Defined.

(** X10: run with a current span, the body of [call_external_service]
    sleeps for 100 ms plus the hash modulo 100, so at least 100 ms and
    less than 200 ms whatever the hash (negative hashes included), and
    hands exactly two records to the sinks: an [info] record naming the
    service and the operation, then an [error] record of type
    [service_unavailable] when it fails, an [info] record with status
    [success] when it succeeds. *)
Theorem call_external_service_body_effects hash now service_name operation st sp :
  current_span st = Some sp ->
  exists r st' first second,
    call_external_service_body hash now service_name operation st = (r, st')
    /\ slept_ms st' = slept_ms st + (100 + hash (service_name +:+ operation) mod 100)
    /\ 100 <= slept_ms st' - slept_ms st < 200
    /\ emitted st'
       = emitted st
           ++ [("info"%string, first);
               (if hash (service_name +:+ operation) mod 10 =? 0
                then "error"%string else "info"%string, second)]
    /\ first !! "external_service" = Some (VStr service_name)
    /\ first !! "operation" = Some (VStr operation)
    /\ (if hash (service_name +:+ operation) mod 10 =? 0
        then second !! "error_type" = Some (VStr "service_unavailable")
        else second !! "response_status" = Some (VStr "success")).
Proof.
  intros Hsp. destruct st as [h cur em sl]. cbn in Hsp. subst cur.
  pose proof (Z.mod_pos_bound (hash (service_name +:+ operation)) 100 eq_refl) as Hmod.
  unfold call_external_service_body.
  destruct (hash (service_name +:+ operation) mod 10 =? 0); run_handler.
  - eexists _, _, _, _. split; [reflexivity|]. cbn [slept_ms emitted].
    rewrite <- app_assoc. cbn [app].
    split; [lia|]. split; [lia|]. split; [reflexivity|].
    repeat split; by rewrite multi_app_record_other.
  - eexists _, _, _, _. split; [reflexivity|]. cbn [slept_ms emitted].
    rewrite <- app_assoc. cbn [app].
    split; [lia|]. split; [lia|]. split; [reflexivity|].
    repeat split; by rewrite multi_app_record_other.
Qed.

Lemma call_external_service_body_effects_witness :
  exists r st' first second,
    call_external_service_body (fun s => Z.of_nat (String.length s)) "2026-01-01T00:00:00"
      "user-permissions" "get_permissions"
      (Sample.state Sample.record (Some (Sample.span true))) = (r, st')
    /\ slept_ms st' = 0 + (100 + 31 mod 100)
    /\ 100 <= slept_ms st' - 0 < 200
    /\ emitted st' = [] ++ [("info"%string, first); ("info"%string, second)]
    /\ first !! "external_service" = Some (VStr "user-permissions")
    /\ first !! "operation" = Some (VStr "get_permissions")
    /\ second !! "response_status" = Some (VStr "success").
Proof.
  apply (call_external_service_body_effects (fun s => Z.of_nat (String.length s))
           "2026-01-01T00:00:00" "user-permissions" "get_permissions"
           (Sample.state Sample.record (Some (Sample.span true)))
           (Sample.span true)).
  reflexivity.
Defined.

(** X11: run with a current span, the body of [simulate_db_query] never
    raises and sleeps at least 50 ms and less than 100 ms.  It hands
    two [info] records to the sinks, the first naming the operation and
    the entity, and returns a reference that denoted no dictionary
    before.  For a [select] the dictionary behind it has a [count]
    between 1 and 10 whatever the hash (negative hashes included), which
    the second record reports, and as [data] the entity identifier after
    "mock_data_for_"; for any other query type it is [{"success":
    True}].  Every dictionary that existed before is as it was. *)
Theorem simulate_db_query_body_result hash query_type entity_id st sp :
  current_span st = Some sp ->
  exists st' result fields first second,
    MultiAppHandlers.simulate_db_query_body hash query_type entity_id st
    = (Ret (VRef result), st')
    /\ heap st !! result = None
    /\ heap st' !! result = Some fields
    /\ (forall d old, heap st !! d = Some old -> heap st' !! d = Some old)
    /\ 50 <= slept_ms st' - slept_ms st < 100
    /\ emitted st' = emitted st ++ [("info"%string, first); ("info"%string, second)]
    /\ first !! "db_operation" = Some (VStr query_type)
    /\ first !! "entity_id" = Some (VStr entity_id)
    /\ if String.eqb query_type "select"
       then exists count,
              fields = <["count" := VInt count]>
                         (<["data" := VStr ("mock_data_for_" +:+ entity_id)]> ∅)
              /\ count = hash entity_id mod 10 + 1
              /\ 1 <= count <= 10
              /\ second !! "result_count" = Some (VInt count)
       else fields = <["success" := VBool true]> ∅
            /\ second !! "operation_success" = Some (VBool true).
Proof.
  intros Hsp. destruct st as [h cur em sl]. cbn in Hsp. subst cur.
  pose proof (Z.mod_pos_bound (hash entity_id) 50 eq_refl) as Hmod50.
  pose proof (Z.mod_pos_bound (hash entity_id) 10 eq_refl) as Hmod10.
  unfold MultiAppHandlers.simulate_db_query_body.
  destruct (String.eqb query_type "select"); run_handler.
  - eexists _, _, _, _, _. split; [reflexivity|]. cbn [heap slept_ms emitted].
    split; [apply fresh_above; heap_grows|].
    split; [apply lookup_insert_eq|].
    split; [apply heap_frame; heap_grows|].
    split; [lia|].
    rewrite <- app_assoc. cbn [app]. split; [reflexivity|].
    split; [by rewrite multi_app_record_other|].
    split; [by rewrite multi_app_record_other|].
    eexists. split; [reflexivity|]. split; [reflexivity|]. split; [lia|].
    by rewrite multi_app_record_other.
  - eexists _, _, _, _, _. split; [reflexivity|]. cbn [heap slept_ms emitted].
    split; [apply fresh_above; heap_grows|].
    split; [apply lookup_insert_eq|].
    split; [apply heap_frame; heap_grows|].
    split; [lia|].
    rewrite <- app_assoc. cbn [app]. split; [reflexivity|].
    split; [by rewrite multi_app_record_other|].
    split; [by rewrite multi_app_record_other|].
    split; [reflexivity|]. by rewrite multi_app_record_other.
Qed.

Lemma simulate_db_query_body_result_witness :
  exists st' result fields first second,
    MultiAppHandlers.simulate_db_query_body (fun s => - Z.of_nat (String.length s))
      "select" "u-42"
      (Sample.state Sample.record (Some (Sample.span true)))
    = (Ret (VRef result), st')
    /\ heap (Sample.state Sample.record (Some (Sample.span true))) !! result = None
    /\ heap st' !! result = Some fields
    /\ (forall d old,
          heap (Sample.state Sample.record (Some (Sample.span true))) !! d = Some old ->
          heap st' !! d = Some old)
    /\ 50 <= slept_ms st' - 0 < 100
    /\ emitted st' = [] ++ [("info"%string, first); ("info"%string, second)]
    /\ first !! "db_operation" = Some (VStr "select")
    /\ first !! "entity_id" = Some (VStr "u-42")
    /\ exists count,
         fields = <["count" := VInt count]>
                    (<["data" := VStr ("mock_data_for_" +:+ "u-42")]> ∅)
         /\ count = (- 4) mod 10 + 1
         /\ 1 <= count <= 10
         /\ second !! "result_count" = Some (VInt count).
Proof.
  apply (simulate_db_query_body_result (fun s => - Z.of_nat (String.length s))
           "select" "u-42"
           (Sample.state Sample.record (Some (Sample.span true)))
           (Sample.span true)).
  reflexivity.
Defined.

(** X12: [simulate_db_query] carries the same bare decorator as
    [call_external_service]: the name is bound to a context manager, and
    a call with any number of arguments other than one raises [TypeError]
    with the state untouched, so the body never runs on the two-argument
    calls the handlers make. *)
Theorem simulate_db_query_raises_type_error
    hash with_span (args : list value) st :
  length args <> 1%nat ->
  call with_span (MultiAppHandlers.simulate_db_query hash) args st
  = (Raise TypeError, st).
Proof.
  intros Hlen.
  unfold MultiAppHandlers.simulate_db_query, start_as_current_span.
  destruct args as [|a [|b rest]]; [reflexivity | | reflexivity].
  cbn in Hlen. congruence.
Qed.

Lemma simulate_db_query_raises_type_error_witness :
  call (fun _ m => m) (MultiAppHandlers.simulate_db_query (fun _ => 7))
       [VStr "select"; VStr "u-42"] (Sample.state Sample.record None)
  = (Raise TypeError, Sample.state Sample.record None).
Proof.
  apply (simulate_db_query_raises_type_error (fun _ => 7) (fun _ m => m)
           [VStr "select"; VStr "u-42"] (Sample.state Sample.record None)).
  cbn. discriminate.
Defined.

(** ** Handlers of the fastapi example *)

Ltac run_spans :=
  unfold with_span_as_current, with_current_span, get_current_span,
    get_span_context;
  unfold mbind, M_bind, mret, M_ret, raise;
  cbv beta iota; cbn [heap current_span emitted slept_ms];
  repeat (run_step; cbn [heap current_span emitted slept_ms]).

(** X13: the startup and shutdown hooks of the fastapi example pass
    [event] both positionally and as a keyword argument, so the log call
    raises [TypeError]; the hooks raise it in every state, and no record
    reaches the sinks. *)
Theorem startup_and_shutdown_raise st :
  FastapiHandlers.startup_event st = (Raise TypeError, st)
  /\ FastapiHandlers.shutdown_event st = (Raise TypeError, st).
Proof.
  unfold FastapiHandlers.startup_event, FastapiHandlers.shutdown_event,
    FastapiHandlers.logger, mbind, M_bind.
  by rewrite !bound_logger_call_event_keyword.
Qed.

(** X14: [error_endpoint] never returns: in every state it raises
    HTTP 500 with the detail of the file, after two [error] records, the
    second naming the [ZeroDivisionError] and its message; the current
    span and the time slept are untouched. *)
Theorem error_endpoint_always_500 st :
  exists st' first second,
    FastapiHandlers.error_endpoint st
    = (Raise (HTTPException 500 "这是一个示例错误"), st')
    /\ emitted st' = emitted st ++ [("error"%string, first); ("error"%string, second)]
    /\ first !! "error_type" = Some (VStr "demo")
    /\ second !! "error_type" = Some (VStr "ZeroDivisionError")
    /\ second !! "error_message" = Some (VStr "division by zero")
    /\ current_span st' = current_span st
    /\ slept_ms st' = slept_ms st.
Proof.
  destruct st as [h cur em sl].
  unfold FastapiHandlers.error_endpoint.
  change (FastapiHandlers.truediv 1 0)
    with (FastapiHandlers.ZeroDivisionError "division by zero").
  run_handler.
  eexists _, _, _. split; [reflexivity|]. cbn [emitted current_span slept_ms].
  rewrite <- app_assoc. cbn [app].
  split; [reflexivity|].
  repeat split; by rewrite fastapi_record_other.
Qed.

(** X15: [root] and [health_check] of the fastapi example never raise,
    with or without a current span: each hands one [info] record to the
    sinks and returns a new dictionary with the body of the response;
    dictionaries that existed before, the current span and the time
    slept are untouched. *)
Theorem plain_handlers_return now st :
  (exists st' result record,
      FastapiHandlers.root now st = (Ret (VRef result), st')
      /\ heap st !! result = None
      /\ heap st' !! result
         = Some (<["message" := VStr "Hello World"]>
                   (<["service" := VStr "fastapi-demo"]>
                      (<["timestamp" := VStr now]> ∅)))
      /\ emitted st' = emitted st ++ [("info"%string, record)]
      /\ record !! "endpoint" = Some (VStr "/")
      /\ current_span st' = current_span st
      /\ slept_ms st' = slept_ms st
      /\ forall d fields, heap st !! d = Some fields -> heap st' !! d = Some fields)
  /\
  (exists st' result record,
      FastapiHandlers.health_check st = (Ret (VRef result), st')
      /\ heap st !! result = None
      /\ heap st' !! result
         = Some (<["status" := VStr "healthy"]>
                   (<["service" := VStr "fastapi-demo"]> ∅))
      /\ emitted st' = emitted st ++ [("info"%string, record)]
      /\ record !! "endpoint" = Some (VStr "/health")
      /\ current_span st' = current_span st
      /\ slept_ms st' = slept_ms st
      /\ forall d fields, heap st !! d = Some fields -> heap st' !! d = Some fields).
Proof.
  destruct st as [h cur em sl].
  unfold FastapiHandlers.root, FastapiHandlers.health_check.
  split; run_handler; eexists _, _, _; (split; [reflexivity|]);
    cbn [heap emitted current_span slept_ms];
    (split; [|split; [apply lookup_insert_eq|]]).
  - apply not_elem_of_dom. intros Hin.
    pose proof (is_fresh (dom (<[fresh (dom h) := fastapi_record cur "根路径被访问"
        [("endpoint"%string, VStr "/"); ("method"%string, VStr "GET")]]> h))) as Hfresh.
    apply Hfresh. rewrite dom_insert_L. set_solver.
  - split; [reflexivity|]. split; [by rewrite fastapi_record_other|].
    repeat split. intros d fields Hd.
    rewrite lookup_insert_ne.
    + by apply insert_fresh_frame.
    + apply fresh_lookup_ne. rewrite (insert_fresh_frame _ _ _ _ Hd). by eexists.
  - apply not_elem_of_dom. intros Hin.
    pose proof (is_fresh (dom (<[fresh (dom h) := fastapi_record cur "健康检查"
        [("endpoint"%string, VStr "/health"); ("method"%string, VStr "GET")]]> h))) as Hfresh.
    apply Hfresh. rewrite dom_insert_L. set_solver.
  - split; [reflexivity|]. split; [by rewrite fastapi_record_other|].
    repeat split. intros d fields Hd.
    rewrite lookup_insert_ne.
    + by apply insert_fresh_frame.
    + apply fresh_lookup_ne. rewrite (insert_fresh_frame _ _ _ _ Hd). by eexists.
Qed.

Lemma fastapi_record_trace sp event kw :
  trace_id (span_context sp) <> 0 ->
  fastapi_record (Some sp) event kw !! "trace_id"
  = Some (VStr (format_x 32 (trace_id (span_context sp))))
  /\ fastapi_record (Some sp) event kw !! "span_id"
     = Some (VStr (format_x 16 (span_id (span_context sp)))).
Proof.
  intros Hid. unfold fastapi_record. apply Z.eqb_neq in Hid. rewrite Hid.
  by rewrite trace_fields_trace_id, trace_fields_span_id.
Qed.

(** X16: [trace_example] never raises.  It hands four [info] records to
    the sinks, sleeps 200 ms in all, leaves the span that was current
    before the request current again, and returns a reference that
    denoted no dictionary before, behind which lie the item, the status
    "processed" and the identifiers of the [process_item] span rendered
    as 32 and 16 hexadecimal characters.  Every dictionary that existed
    before is as it was. *)
Theorem trace_example_runs new_span item_id st :
  exists st' result r1 r2 r3 r4,
    FastapiHandlers.trace_example new_span item_id st = (Ret (VRef result), st')
    /\ emitted st'
       = emitted st ++ [("info"%string, r1); ("info"%string, r2);
                        ("info"%string, r3); ("info"%string, r4)]
    /\ r1 !! "operation" = Some (VStr "start")
    /\ r2 !! "operation" = Some (VStr "validate")
    /\ r3 !! "operation" = Some (VStr "business_logic")
    /\ r4 !! "operation" = Some (VStr "complete")
    /\ slept_ms st' = slept_ms st + 200
    /\ current_span st' = current_span st
    /\ heap st' !! result
       = Some (<["item_id" := VStr item_id]>
                 (<["status" := VStr "processed"]>
                    (<["trace_id" :=
                         VStr (format_x 32 (trace_id (span_context
                                 (new_span "process_item" (current_span st)))))]>
                       (<["span_id" :=
                            VStr (format_x 16 (span_id (span_context
                                    (new_span "process_item" (current_span st)))))]> ∅))))
    /\ heap st !! result = None
    /\ (forall d fields, heap st !! d = Some fields -> heap st' !! d = Some fields).
Proof.
  destruct st as [h cur em sl].
  unfold FastapiHandlers.trace_example. run_spans.
  eexists _, _, _, _, _, _. split; [reflexivity|].
  cbn [heap emitted current_span slept_ms].
  rewrite <- !app_assoc. cbn [app].
  split; [reflexivity|].
  rewrite !fastapi_record_other by done.
  rewrite !with_attribute_context, lookup_insert_eq.
  do 4 (split; [done|]). split; [lia|]. split; [done|]. split; [done|].
  split; [apply fresh_above; heap_grows | apply heap_frame; heap_grows].
Qed.

(** X17: when the [process_item] span has a non-zero trace identifier,
    the [trace_id] and [span_id] that [trace_example] returns in its
    response are the ones carried by the first and the last record it
    logged, so a response can be matched with its log lines. *)
Theorem trace_example_response_matches_logs new_span item_id st :
  trace_id (span_context (new_span "process_item" (current_span st))) <> 0 ->
  exists st' result fields r1 r2 r3 r4,
    FastapiHandlers.trace_example new_span item_id st = (Ret (VRef result), st')
    /\ heap st' !! result = Some fields
    /\ emitted st'
       = emitted st ++ [("info"%string, r1); ("info"%string, r2);
                        ("info"%string, r3); ("info"%string, r4)]
    /\ is_Some (fields !! "trace_id")
    /\ is_Some (fields !! "span_id")
    /\ r1 !! "trace_id" = fields !! "trace_id"
    /\ r1 !! "span_id" = fields !! "span_id"
    /\ r4 !! "trace_id" = fields !! "trace_id"
    /\ r4 !! "span_id" = fields !! "span_id".
Proof.
  intros Hid. destruct st as [h cur em sl]. cbn [current_span] in Hid.
  unfold FastapiHandlers.trace_example. run_spans.
  eexists _, _, _, _, _, _, _. split; [reflexivity|].
  cbn [heap emitted].
  split; [apply lookup_insert_eq|].
  rewrite <- !app_assoc. cbn [app].
  split; [reflexivity|].
  set (outer := with_attribute "operation" (VStr "trace_example")
                  (with_attribute "item.id" (VStr item_id)
                     (new_span "process_item" cur))).
  assert (Hctx : span_context outer = span_context (new_span "process_item" cur)).
  { unfold outer. by rewrite !with_attribute_context. }
  assert (Hid' : trace_id (span_context outer) <> 0) by by rewrite Hctx.
  destruct (fastapi_record_trace outer "开始处理项目"
              [("endpoint"%string, VStr "/trace"); ("item_id"%string, VStr item_id);
               ("operation"%string, VStr "start")] Hid') as [-> ->].
  destruct (fastapi_record_trace outer "项目处理完成"
              [("endpoint"%string, VStr "/trace"); ("item_id"%string, VStr item_id);
               ("operation"%string, VStr "complete")] Hid') as [-> ->].
  repeat split; by eexists || reflexivity.
Qed.

Lemma trace_example_response_matches_logs_witness :
  exists st' result fields r1 r2 r3 r4,
    FastapiHandlers.trace_example (fun _ _ => Sample.span true) "item-7"
      (Sample.state Sample.record None) = (Ret (VRef result), st')
    /\ heap st' !! result = Some fields
    /\ emitted st'
       = [] ++ [("info"%string, r1); ("info"%string, r2);
                ("info"%string, r3); ("info"%string, r4)]
    /\ is_Some (fields !! "trace_id")
    /\ is_Some (fields !! "span_id")
    /\ r1 !! "trace_id" = fields !! "trace_id"
    /\ r1 !! "span_id" = fields !! "span_id"
    /\ r4 !! "trace_id" = fields !! "trace_id"
    /\ r4 !! "span_id" = fields !! "span_id".
Proof.
  apply (trace_example_response_matches_logs (fun _ _ => Sample.span true) "item-7"
           (Sample.state Sample.record None)).
  vm_compute. discriminate.
Defined.

(** ** Handlers of the multi-app example *)

(** A context manager called with two arguments. *)
Lemma context_manager_call_two with_span name (a b : value) st :
  call with_span (start_as_current_span name) [a; b] st = (Raise TypeError, st).
Proof. reflexivity. Qed.


(** X18: [get_user] never answers: its first call to
    [simulate_db_query] hits the context manager that the bare decorator
    left under that name, so in every state and for every user the
    handler raises [TypeError] after its first log record; the span that
    was current before the request is current again and nothing was
    slept. *)
Theorem get_user_always_raises hash now with_span new_span user_id st :
  exists st' record,
    MultiAppHandlers.get_user hash now with_span new_span user_id st
    = (Raise TypeError, st')
    /\ emitted st' = emitted st ++ [("info"%string, record)]
    /\ record !! "user_id" = Some (VStr user_id)
    /\ current_span st' = current_span st
    /\ slept_ms st' = slept_ms st.
Proof.
  destruct st as [h cur em sl].
  unfold MultiAppHandlers.get_user, MultiAppHandlers.simulate_db_query. run_spans.
  rewrite context_manager_call_two. cbv beta iota.
  cbn [heap current_span emitted slept_ms].
  eexists _, _. split; [reflexivity|]. split; [reflexivity|].
  by rewrite multi_app_record_other.
Qed.

(** X19: [metrics_demo] never raises.  Of its six log calls the [debug]
    one is dropped, so four [info] records and one [warning] record
    reach the sinks, in that order; it sleeps 300 ms in all, the
    "0.3s" it reports as processing time; the span that was current
    before the request is current again.  It returns a reference that
    denoted no dictionary before, behind which lies the fixed body of
    the response, and every dictionary that existed before is as it
    was. *)
Theorem metrics_demo_runs now later new_span st :
  exists st' result r1 r2 r3 r4 r5,
    MultiAppHandlers.metrics_demo now later new_span st = (Ret (VRef result), st')
    /\ emitted st'
       = emitted st ++ [("info"%string, r1); ("info"%string, r2);
                        ("info"%string, r3); ("info"%string, r4);
                        ("warning"%string, r5)]
    /\ r1 !! "event" = Some (VStr "指标收集演示")
    /\ r2 !! "event" = Some (VStr "处理开始")
    /\ r4 !! "processing_time" = Some (VStr "0.3s")
    /\ slept_ms st' = slept_ms st + 300
    /\ current_span st' = current_span st
    /\ heap st' !! result
       = Some (<["metrics_collected" := VBool true]>
                 (<["records_processed" := VInt 100]>
                    (<["processing_time" := VStr "0.3s"]>
                       (<["warnings" := VInt 1]> ∅))))
    /\ heap st !! result = None
    /\ (forall d fields, heap st !! d = Some fields -> heap st' !! d = Some fields).
Proof.
  destruct st as [h cur em sl].
  unfold MultiAppHandlers.metrics_demo. run_spans.
  eexists _, _, _, _, _, _, _. split; [reflexivity|].
  cbn [heap emitted current_span slept_ms].
  rewrite <- !app_assoc. cbn [app].
  split; [reflexivity|].
  assert (Hevent : forall c e kw, multi_app_record c e kw !! "event" = Some (VStr e)).
  { intros c e kw. unfold multi_app_record.
    destruct c as [sp|];
      [destruct (recording sp && negb (trace_id (span_context sp) =? 0))|];
      rewrite ?otel_fields_other by done;
      rewrite service_fields_lookup; repeat case_decide; try congruence;
      apply event_fields_event. }
  rewrite !Hevent, multi_app_record_other, lookup_insert_eq by done.
  do 3 (split; [done|]). split; [lia|]. split; [done|]. split; [done|].
  split; [apply fresh_above; heap_grows | apply heap_frame; heap_grows].
Qed.


